(** * Authentication and authorization pipeline of go-web-course-for-javaer

    A shallow embedding of the token, password, lockout and middleware code
    of the course examples, with the properties of its specification.

    Conventions.
    - A Go [string] or [[]byte] is a [string] (a sequence of bytes).
    - A Go [int], [uint] or [int8] is a [Z]; where the code does arithmetic
      on it the wrap-around is written out ([int8], [int64]).
    - A Go [map] is a stdpp [gmap]; a missing key reads as the zero value.
    - [time.Time] is an instant in nanoseconds since the Unix epoch and
      [time.Duration] a number of nanoseconds, both [Z].
    - The third-party packages the examples call (gin v1.9.1,
      golang-jwt/jwt v5.2.1, x/crypto/bcrypt v0.21.0, see go.mod) are
      modelled at their interface; each model says what it keeps. *)

From Stdlib Require Import ZArith Ascii String List Bool Lia.
From stdpp Require Import base gmap strings list.
Import ListNotations.
Open Scope string_scope.
Open Scope Z_scope.
#[local] Set Warnings "-register-all".

(** ** gin: request context and handler chain *)

Module gin.

(** Values rendered by [c.JSON]. [H] is [gin.H], a JSON object. *)
Inductive json :=
| JNull
| JBool (b : bool)
| JNum (n : Z)
| JStr (s : string)
| JArr (l : list json)
| JObj (fields : list (string * json)).

Definition H (fields : list (string * json)) : json := JObj fields.

(** Values stored under [c.Keys] (Go's [any], for the types the handlers
    store). *)
Inductive any :=
| AString (s : string)
| AUint (n : Z)
| AInt (n : Z)
| AStrings (l : list string).

Record Request := {
  Header : gmap string string;   (* first value of each header *)
  URLQuery : gmap string string  (* first value of each query parameter *)
}.

(** [gin.Context]. [Writer] keeps the renders in the order they were
    made, each with the status it asked for. [stdout] is the output of
    [fmt.Println]; [verified] is ghost state: the token strings handed to
    the token verifier, in call order. The handler list of the real
    context is the [handlers] argument of [run] below. *)
Record Context := {
  Req : Request;
  index : Z;                       (* int8 *)
  Keys : gmap string any;
  Writer : list (Z * json);
  stdout : list string;
  verified : list string
}.

Definition set_index (i : Z) (c : Context) : Context :=
  {| Req := Req c; index := i; Keys := Keys c; Writer := Writer c;
     stdout := stdout c; verified := verified c |}.

Definition int8 (z : Z) : Z := (z + 128) mod 256 - 128.

(** [abortIndex = math.MaxInt8 >> 1] *)
Definition abortIndex : Z := 63.

Definition StatusOK : Z := 200.
Definition StatusCreated : Z := 201.
Definition StatusBadRequest : Z := 400.
Definition StatusUnauthorized : Z := 401.
Definition StatusForbidden : Z := 403.
Definition StatusConflict : Z := 409.
Definition StatusTooManyRequests : Z := 429.
Definition StatusInternalServerError : Z := 500.

(** [c.GetHeader(key)]: the header's value, [""] when absent. *)
Definition GetHeader (key : string) (c : Context) : string :=
  default "" (Header (Req c) !! key).

(** [c.Query(key)]: the parameter's value, [""] when absent. *)
Definition Query (key : string) (c : Context) : string :=
  default "" (URLQuery (Req c) !! key).

(** [c.Set(key, value)] *)
Definition Set_ (key : string) (v : any) (c : Context) : Context :=
  {| Req := Req c; index := index c; Keys := <[key := v]> (Keys c);
     Writer := Writer c; stdout := stdout c; verified := verified c |}.

(** [c.Get(key)]: [(value, exists)] as an option. *)
Definition Get (key : string) (c : Context) : option any := Keys c !! key.

(** [c.GetStringSlice(key)]: the slice, nil when the key is absent or
    holds another type. *)
Definition GetStringSlice (key : string) (c : Context) : list string :=
  match Get key c with
  | Some (AStrings l) => l
  | _ => []
  end.

(** [c.JSON(code, obj)] *)
Definition JSON (code : Z) (obj : json) (c : Context) : Context :=
  {| Req := Req c; index := index c; Keys := Keys c;
     Writer := (Writer c ++ [(code, obj)])%list;
     stdout := stdout c; verified := verified c |}.

(** [c.Abort()]: [c.index = abortIndex] *)
Definition Abort (c : Context) : Context := set_index abortIndex c.

(** [c.IsAborted()]: [c.index >= abortIndex] *)
Definition IsAborted (c : Context) : bool := abortIndex <=? index c.

(** [c.AbortWithStatusJSON(code, obj)]: [c.Abort(); c.JSON(code, obj)] *)
Definition AbortWithStatusJSON (code : Z) (obj : json) (c : Context) : Context :=
  JSON code obj (Abort c).

(** [fmt.Println(line)] *)
Definition Println (line : string) (c : Context) : Context :=
  {| Req := Req c; index := index c; Keys := Keys c; Writer := Writer c;
     stdout := (stdout c ++ [line])%list; verified := verified c |}.

(** Ghost: records that the token verifier is called on [token]. *)
Definition note_verify (token : string) (c : Context) : Context :=
  {| Req := Req c; index := index c; Keys := Keys c; Writer := Writer c;
     stdout := stdout c; verified := (verified c ++ [token])%list |}.

(** A [gin.HandlerFunc] is a function of the context; its first argument
    here is what [c.Next()] does when the handler calls it. *)
Abbreviation HandlerFunc := ((Context -> Context) -> Context -> Context)%type.
Abbreviation HandlersChain := (list ((Context -> Context) -> Context -> Context)).

(** [c.index++] *)
Definition bump (c : Context) : Context := set_index (int8 (index c + 1)) c.

(** The loop of [Context.Next]:
<<
    c.index++
    for c.index < int8(len(c.handlers)) {
        c.handlers[c.index](c)
        c.index++
    }
>>
    [run] is the [for] loop, entered after the first increment; a handler
    that calls [c.Next()] re-enters it. [fuel] bounds the handlers still
    to be started: every start is at a strictly larger index, so the
    length of the chain is enough. A negative index (reached only by
    wrapping the int8 around) makes Go panic on the slice access; the
    loop stops there. *)
Fixpoint run (fuel : nat) (handlers : HandlersChain) (c : Context) : Context :=
  match fuel with
  | O => c
  | S fuel' =>
      if index c <? int8 (Z.of_nat (length handlers)) then
        if index c <? 0 then c
        else
          match handlers !! Z.to_nat (index c) with
          | Some h =>
              run fuel' handlers
                  (bump (h (fun c' => run fuel' handlers (bump c')) c))
          | None => c
          end
      else c
  end.

(** [c.Next()] *)
Definition Next (fuel : nat) (handlers : HandlersChain) (c : Context) : Context :=
  run fuel handlers (bump c).

(** A context as the engine hands it to the chain of a new request. *)
Definition newContext (req : Request) : Context :=
  {| Req := req; index := -1; Keys := ∅; Writer := []; stdout := [];
     verified := [] |}.

(** [c.reset()] as far as the chain is concerned: [c.index = -1]. *)
Definition reset (c : Context) : Context := set_index (-1) c.

(** [engine.handleHTTPRequest] once the route's chain is found:
    [c.handlers = handlers; c.Next()]. gin refuses (panics at
    registration) a chain of [abortIndex] handlers or more. *)
Definition handleHTTPRequest (handlers : HandlersChain) (c : Context) : Context :=
  Next (length handlers) handlers (reset c).

(** A value of type [any] as [c.JSON] renders it; [None] is [nil]. *)
Definition render (v : option any) : json :=
  match v with
  | None => JNull
  | Some (AString s) => JStr s
  | Some (AUint n) => JNum n
  | Some (AInt n) => JNum n
  | Some (AStrings l) => JArr (map JStr l)
  end.

End gin.

(** ** golang-jwt/jwt v5: tokens, signing methods, parser, validator

  Cryptography and encodings are symbolic. The HMAC of a signing input
  under a key is the term [HMACsum] of that hash, key, header and claims;
  any other byte string is [RawSig], which no HMAC equals. A token string
  is [Compact] when it has three dot-separated segments whose first two
  decode (base64url, JSON) to a header and to claims, and [Malformed]
  otherwise; the third segment is [None] when it is not base64url. *)

Module jwt.

Inductive HashAlg := SHA256 | SHA384 | SHA512.

Inductive SigningMethod :=
| SigningMethodHMAC (h : HashAlg)
| SigningMethodRSA (h : HashAlg)
| SigningMethodRSAPSS (h : HashAlg)
| SigningMethodECDSA (h : HashAlg)
| SigningMethodEd25519
| SigningMethodNone.

Definition SigningMethodHS256 : SigningMethod := SigningMethodHMAC SHA256.
Definition SigningMethodHS384 : SigningMethod := SigningMethodHMAC SHA384.
Definition SigningMethodHS512 : SigningMethod := SigningMethodHMAC SHA512.

Definition hash_bits (h : HashAlg) : string :=
  match h with SHA256 => "256" | SHA384 => "384" | SHA512 => "512" end.

(** [method.Alg()] *)
Definition Alg (m : SigningMethod) : string :=
  match m with
  | SigningMethodHMAC h => "HS" ++ hash_bits h
  | SigningMethodRSA h => "RS" ++ hash_bits h
  | SigningMethodRSAPSS h => "PS" ++ hash_bits h
  | SigningMethodECDSA h => "ES" ++ hash_bits h
  | SigningMethodEd25519 => "EdDSA"
  | SigningMethodNone => "none"
  end.

(** The methods the package registers in its [init] functions. *)
Definition signingMethods : list SigningMethod :=
  [ SigningMethodHMAC SHA256; SigningMethodHMAC SHA384; SigningMethodHMAC SHA512;
    SigningMethodRSA SHA256; SigningMethodRSA SHA384; SigningMethodRSA SHA512;
    SigningMethodRSAPSS SHA256; SigningMethodRSAPSS SHA384; SigningMethodRSAPSS SHA512;
    SigningMethodECDSA SHA256; SigningMethodECDSA SHA384; SigningMethodECDSA SHA512;
    SigningMethodEd25519; SigningMethodNone ].

(** [GetSigningMethod(alg)]: the registered method of that name, if any. *)
Definition GetSigningMethod (alg : string) : option SigningMethod :=
  List.find (fun m => String.eqb (Alg m) alg) signingMethods.

(** The package's error values, and [Custom] for an error made by the
    caller ([fmt.Errorf]). An error is the list of the values it wraps, as
    [errors.Is] sees them. *)
Inductive Sentinel :=
| ErrInvalidKeyType
| ErrSignatureInvalid
| NoneSignatureTypeDisallowedError
| ErrTokenMalformed
| ErrTokenUnverifiable
| ErrTokenSignatureInvalid
| ErrTokenInvalidClaims
| ErrTokenExpired
| ErrTokenNotValidYet
| Custom (msg : string).

Definition Error : Type := list Sentinel.

(** [jwt.RegisteredClaims]; a [*NumericDate] is an optional instant. *)
Record RegisteredClaims := {
  Issuer : string;
  Subject : string;
  Audience : list string;
  ExpiresAt : option Z;
  NotBefore : option Z;
  IssuedAt : option Z;
  ID : string
}.

(** The [jwt.Claims] interface, for structs that embed
    [RegisteredClaims] and so get its getters. *)
Class Claims (C : Type) := {
  registered : C -> RegisteredClaims;
  claims_eq_dec :: EqDecision C
}.

Definition second : Z := 1000000000.
Definition minute : Z := 60 * second.
Definition hour : Z := 60 * minute.

(** [t.Truncate(d)] for an instant after year 1. *)
Definition Truncate (t d : Z) : Z := t - t mod d.

(** [TimePrecision = time.Second];
    [NewNumericDate(t) = &NumericDate{t.Truncate(TimePrecision)}] *)
Definition TimePrecision : Z := second.
Definition NewNumericDate (t : Z) : option Z := Some (Truncate t TimePrecision).

Record Header := { typ : option string; alg : option string }.

Inductive Signature (C : Type) :=
| HMACsum (h : HashAlg) (key : string) (hdr : Header) (claims : C)
| RawSig (raw : string).
Arguments HMACsum {C}.
Arguments RawSig {C}.

Inductive TokenString (C : Type) :=
| Compact (hdr : Header) (claims : C) (sig : option (Signature C))
| Malformed (s : string).
Arguments Compact {C}.
Arguments Malformed {C}.

(** [jwt.Token] *)
Record Token (C : Type) := {
  Raw : TokenString C;
  Method : SigningMethod;
  TokenHeader : Header;
  TokenClaims : C;
  TokenSignature : option (Signature C);
  Valid : bool
}.
Arguments Raw {C}.
Arguments Method {C}.
Arguments TokenHeader {C}.
Arguments TokenClaims {C}.
Arguments TokenSignature {C}.
Arguments Valid {C}.

#[global] Instance HashAlg_eq_dec : EqDecision HashAlg.
Proof. solve_decision. Defined.
#[global] Instance Header_eq_dec : EqDecision Header.
Proof. solve_decision. Defined.
#[global] Instance RegisteredClaims_eq_dec : EqDecision RegisteredClaims.
Proof. solve_decision. Defined.
#[global] Instance Signature_eq_dec `{EqDecision C} : EqDecision (Signature C).
Proof. solve_decision. Defined.

(** The header names one of the HMAC methods. *)
Definition names_hmac (hdr : Header) : bool :=
  match alg hdr with
  | Some name => existsb (String.eqb name) ["HS256"; "HS384"; "HS512"]
  | None => false
  end.


(** [now] lies in the validity window: not before [nbf], before [exp]. *)
Definition in_validity_window (rc : RegisteredClaims) (now : Z) : Prop :=
  match ExpiresAt rc with Some exp => now < exp | None => True end
  /\ match NotBefore rc with Some nbf => nbf <= now | None => True end.

(** A [Keyfunc] of the examples returns a [[]byte] key or an error. *)
Definition Keyfunc (C : Type) : Type := Token C -> string + Error.

Section Parser.
Context {C : Type} `{Claims C}.

(** [method.Verify(signingString, sig, key)] for a [[]byte] key; the
    signing string is the received header and claims segments. The
    HMAC methods recompute the sum under the token's hash and compare;
    the RSA, RSA-PSS, ECDSA and Ed25519 methods want a public key of
    their own type and the none method its magic constant, so each
    refuses a [[]byte]. *)
Definition Verify (m : SigningMethod) (hdr : Header) (claims : C)
           (sig : Signature C) (key : string) : option Error :=
  match m with
  | SigningMethodHMAC h =>
      if bool_decide (sig = HMACsum h key hdr claims) then None
      else Some [ErrSignatureInvalid]
  | SigningMethodNone => Some [NoneSignatureTypeDisallowedError]
  | _ => Some [ErrInvalidKeyType]
  end.

(** [method.Sign(signingString, key)] for a [[]byte] key. *)
Definition Sign (m : SigningMethod) (hdr : Header) (claims : C)
           (key : string) : Signature C + Error :=
  match m with
  | SigningMethodHMAC h => inl (HMACsum h key hdr claims)
  | SigningMethodNone => inr [NoneSignatureTypeDisallowedError]
  | _ => inr [ErrInvalidKeyType]
  end.

(** [NewWithClaims(method, claims)]: header [typ: JWT, alg: method.Alg()]
    and [token.SignedString(key)]. *)
Definition NewWithClaims_SignedString (m : SigningMethod) (claims : C)
           (key : string) : TokenString C + Error :=
  let hdr := {| typ := Some "JWT"; alg := Some (Alg m) |} in
  match Sign m hdr claims key with
  | inl sig => inl (Compact hdr claims (Some sig))
  | inr e => inr e
  end.

(** [Validator.Validate] with the default options: [exp] and [nbf] are
    checked when present, with no leeway; [iat], audience, issuer and
    subject are not. *)
Definition verifyExpiresAt (rc : RegisteredClaims) (now : Z) : list Sentinel :=
  match ExpiresAt rc with
  | None => []
  | Some exp => if now <? exp then [] else [ErrTokenExpired]
  end.

Definition verifyNotBefore (rc : RegisteredClaims) (now : Z) : list Sentinel :=
  match NotBefore rc with
  | None => []
  | Some nbf => if negb (now <? nbf) then [] else [ErrTokenNotValidYet]
  end.

Definition Validate (now : Z) (claims : C) : option Error :=
  let errs := (verifyExpiresAt (registered claims) now
               ++ verifyNotBefore (registered claims) now)%list in
  match errs with
  | [] => None
  | _ => Some errs
  end.

(** [Parser.ParseUnverified]: segments, header, claims, then the
    method named by the header's [alg]. *)
Definition ParseUnverified (tokenString : TokenString C) : Token C + Error :=
  match tokenString with
  | Malformed _ => inr [ErrTokenMalformed]
  | Compact hdr claims sig =>
      match alg hdr with
      | Some name =>
          match GetSigningMethod name with
          | Some m =>
              inl {| Raw := tokenString; Method := m; TokenHeader := hdr;
                     TokenClaims := claims; TokenSignature := None;
                     Valid := false |}
          | None => inr [ErrTokenUnverifiable]
          end
      | None => inr [ErrTokenUnverifiable]
      end
  end.

(** [Parser.ParseWithClaims] of the default parser (no
    [WithValidMethods]), at clock [now]. *)
Definition ParseWithClaims (now : Z) (tokenString : TokenString C)
           (keyFunc : Keyfunc C) : Token C + Error :=
  match ParseUnverified tokenString with
  | inr e => inr e
  | inl token =>
      match tokenString with
      | Compact _ _ None => inr [ErrTokenMalformed]
      | Malformed _ => inr [ErrTokenMalformed]
      | Compact _ _ (Some sig) =>
          match keyFunc token with
          | inr e => inr (ErrTokenUnverifiable :: e)
          | inl key =>
              match Verify (Method token) (TokenHeader token)
                           (TokenClaims token) sig key with
              | Some e => inr (ErrTokenSignatureInvalid :: e)
              | None =>
                  match Validate now (TokenClaims token) with
                  | Some e => inr (ErrTokenInvalidClaims :: e)
                  | None =>
                      inl {| Raw := tokenString; Method := Method token;
                             TokenHeader := TokenHeader token;
                             TokenClaims := TokenClaims token;
                             TokenSignature := Some sig;
                             Valid := true |}
                  end
              end
          end
      end
  end.

End Parser.

End jwt.

(** ** golang.org/x/crypto/bcrypt

  Symbolic as well: a well-formed hash is the term [Hashed] of the cost,
  the salt and the password it was computed from, and comparison
  succeeds on that password only; any other string is [NotAHash]. The
  salt is read from [rand.Reader], here the argument [rand] ([None] when
  the read fails). *)

Module bcrypt.

Definition MinCost : Z := 4.
Definition MaxCost : Z := 31.
Definition DefaultCost : Z := 10.
Definition minHashSize : nat := 59.

Inductive Error :=
| ErrMismatchedHashAndPassword
| ErrHashTooShort
| ErrPasswordTooLong
| InvalidCostError (cost : Z)
| ErrHashFormat          (* bad prefix, version or cost field *)
| ErrRand.               (* the error of rand.Reader *)

Inductive Hash :=
| Hashed (cost : Z) (salt : string) (password : string)
| NotAHash (s : string).

(** [checkCost] *)
Definition checkCost (cost : Z) : option Error :=
  if (cost <? MinCost) || (MaxCost <? cost) then Some (InvalidCostError cost)
  else None.

(** [GenerateFromPassword(password, cost)]: refuses a password of more
    than 72 bytes; [newFromPassword] then replaces a cost below [MinCost]
    by [DefaultCost], checks the cost and reads the salt. *)
Definition GenerateFromPassword (rand : option string) (password : string)
           (cost : Z) : Hash + Error :=
  if (72 <? String.length password)%nat then inr ErrPasswordTooLong
  else
    let cost := if cost <? MinCost then DefaultCost else cost in
    match checkCost cost with
    | Some e => inr e
    | None =>
        match rand with
        | None => inr ErrRand
        | Some salt => inl (Hashed cost salt password)
        end
    end.

(** [CompareHashAndPassword(hashedPassword, password)] *)
Definition CompareHashAndPassword (hashedPassword : Hash) (password : string)
  : option Error :=
  match hashedPassword with
  | NotAHash s =>
      if (String.length s <? minHashSize)%nat then Some ErrHashTooShort
      else Some ErrHashFormat
  | Hashed _ _ p =>
      if String.eqb p password then None
      else Some ErrMismatchedHashAndPassword
  end.

End bcrypt.

(** ** 16-密码安全-bcrypt/examples/01-hash-password *)

Module HashPasswordExample.

(** [HashPassword] *)
Definition HashPassword (rand : option string) (password : string)
  : bcrypt.Hash + bcrypt.Error :=
  match bcrypt.GenerateFromPassword rand password bcrypt.DefaultCost with
  | inr err => inr err
  | inl hash => inl hash
  end.

(** [HashPasswordWithCost] *)
Definition HashPasswordWithCost (rand : option string) (password : string)
           (cost : Z) : bcrypt.Hash + bcrypt.Error :=
  let cost :=
    if (cost <? bcrypt.MinCost) || (bcrypt.MaxCost <? cost)
    then bcrypt.DefaultCost else cost in
  match bcrypt.GenerateFromPassword rand password cost with
  | inr err => inr err
  | inl hash => inl hash
  end.

End HashPasswordExample.

(** ** 16-密码安全-bcrypt/examples/02-verify-password *)

Module VerifyPasswordExample.

(** [CheckPassword] *)
Definition CheckPassword (password : string) (hash : bcrypt.Hash) : bool :=
  match bcrypt.CompareHashAndPassword hash password with
  | None => true
  | Some _ => false
  end.

(** [BcryptMatcher] *)
Record BcryptMatcher := { cost : Z }.

(** [NewBcryptMatcher] *)
Definition NewBcryptMatcher (cost : Z) : BcryptMatcher :=
  let cost :=
    if (cost <? bcrypt.MinCost) || (bcrypt.MaxCost <? cost)
    then bcrypt.DefaultCost else cost in
  {| cost := cost |}.

(** [BcryptMatcher.Hash] *)
Definition Hash (m : BcryptMatcher) (rand : option string) (password : string)
  : bcrypt.Hash + bcrypt.Error :=
  bcrypt.GenerateFromPassword rand password (cost m).

(** [BcryptMatcher.Verify] *)
Definition Verify (m : BcryptMatcher) (password : string) (hash : bcrypt.Hash)
  : option bcrypt.Error :=
  bcrypt.CompareHashAndPassword hash password.




End VerifyPasswordExample.

(** ** 16-密码安全-bcrypt/examples/03-register-login *)

Module RegisterLogin.

Record User := {
  ID : Z;
  Username : string;
  PasswordHash : bcrypt.Hash;
  Email : string;
  CreatedAt : Z
}.

(** The package's variables: the user table, the next id and the
    failed-login counters. [checked] is ghost state: the arguments of
    every [CheckPassword] call, in call order. *)
Record World := {
  users : gmap string User;
  nextID : Z;
  loginAttempts : gmap string Z;
  checked : list (string * bcrypt.Hash)
}.

Record LoginRequest := { req_Username : string; req_Password : string }.

(** What a handler answers: the status and the object given to [c.JSON]. *)
Definition Response : Type := Z * gin.json.

Definition int64 (z : Z) : Z := (z + 2 ^ 63) mod 2 ^ 64 - 2 ^ 63.

Definition maxLoginAttempts : Z := 5.

Definition set_attempts (a : gmap string Z) (w : World) : World :=
  {| users := users w; nextID := nextID w; loginAttempts := a;
     checked := checked w |}.

(** [isLocked] *)
Definition isLocked (username : string) (w : World) : bool :=
  maxLoginAttempts <=? default 0 (loginAttempts w !! username).

(** [recordFailedLogin]: [loginAttempts[username]++] *)
Definition recordFailedLogin (username : string) (w : World) : World :=
  set_attempts
    (<[username := int64 (default 0 (loginAttempts w !! username) + 1)]>
       (loginAttempts w)) w.

(** [clearFailedLogins]: [delete(loginAttempts, username)] *)
Definition clearFailedLogins (username : string) (w : World) : World :=
  set_attempts (delete username (loginAttempts w)) w.

(** [CheckPassword], with the ghost record of the call. *)
Definition CheckPassword (password : string) (hash : bcrypt.Hash) (w : World)
  : bool * World :=
  (match bcrypt.CompareHashAndPassword hash password with
   | None => true
   | Some _ => false
   end,
   {| users := users w; nextID := nextID w; loginAttempts := loginAttempts w;
      checked := (checked w ++ [(password, hash)])%list |}).

(** [c.ShouldBindJSON(&req)] for [LoginRequest]: the body must decode
    ([body] is [None] when it does not) and both fields carry
    [binding:"required"], which refuses the empty string. *)
Definition ShouldBindJSON (body : option LoginRequest) : option LoginRequest :=
  match body with
  | None => None
  | Some req =>
      if String.eqb (req_Username req) "" || String.eqb (req_Password req) ""
      then None else Some req
  end.

Definition msgBadRequest : string := "参数错误".
Definition msgLocked : string := "登录尝试次数过多，请稍后再试".
Definition msgInvalid : string := "用户名或密码错误".
Definition msgSuccess : string := "登录成功".

(** [loginHandler] *)
Definition loginHandler (body : option LoginRequest) (w : World)
  : Response * World :=
  match ShouldBindJSON body with
  | None =>
      ((gin.StatusBadRequest, gin.H [("error", gin.JStr msgBadRequest)]), w)
  | Some req =>
      (* 1. the failure counter *)
      if isLocked (req_Username req) w then
        ((gin.StatusTooManyRequests, gin.H [("error", gin.JStr msgLocked)]), w)
      else
        (* 2. the user *)
        match users w !! req_Username req with
        | None =>
            let w := recordFailedLogin (req_Username req) w in
            ((gin.StatusUnauthorized, gin.H [("error", gin.JStr msgInvalid)]), w)
        | Some user =>
            (* 3. the password *)
            let (ok, w) := CheckPassword (req_Password req) (PasswordHash user) w in
            if negb ok then
              let w := recordFailedLogin (req_Username req) w in
              ((gin.StatusUnauthorized, gin.H [("error", gin.JStr msgInvalid)]), w)
            else
              (* 4. success: the counter is cleared *)
              let w := clearFailedLogins (req_Username req) w in
              ((gin.StatusOK,
                gin.H [("message", gin.JStr msgSuccess);
                       ("user", gin.H [("id", gin.JNum (ID user));
                                       ("username", gin.JStr (Username user));
                                       ("email", gin.JStr (Email user))])]), w)
        end
  end.

(** The request does not carry the credentials of a registered user: the
    user is unknown, or bcrypt refuses the password for the stored hash. *)
Definition wrong_credentials (username password : string) (w : World) : Prop :=
  match users w !! username with
  | None => True
  | Some user =>
      bcrypt.CompareHashAndPassword (PasswordHash user) password <> None
  end.

(** The [error] field of an answer, if it has one. *)
Definition error_message (r : Response) : option string :=
  match snd r with
  | gin.JObj (("error", gin.JStr m) :: _) => Some m
  | _ => None
  end.

(** A body that decodes to the given fields. *)
Definition request (username password : string) : option LoginRequest :=
  Some {| req_Username := username; req_Password := password |}.

(** A series of login attempts for one user, one after the other. *)
Fixpoint attempts (username : string) (passwords : list string) (w : World)
  : World :=
  match passwords with
  | [] => w
  | p :: rest =>
      attempts username rest (snd (loginHandler (request username p) w))
  end.

Record RegisterRequest := {
  reg_Username : string;
  reg_Password : string;
  reg_Email : string
}.

(** The type [uint] of [nextID]. *)
Definition uint64 (z : Z) : Z := z mod 2 ^ 64.

(** [HashPassword] *)
Definition HashPassword (rand : option string) (password : string)
  : bcrypt.Hash + bcrypt.Error :=
  bcrypt.GenerateFromPassword rand password bcrypt.DefaultCost.

(** [a] is one of the bytes from [lo] to [hi]. *)
Definition between (lo hi a : Ascii.ascii) : bool :=
  (Ascii.nat_of_ascii lo <=? Ascii.nat_of_ascii a)%nat
  && (Ascii.nat_of_ascii a <=? Ascii.nat_of_ascii hi)%nat.

(** The twenty characters of the class that [hasSpecial] tests for; the
    double quote among them is byte 34. *)
Definition specialChars : list Ascii.ascii :=
  list_ascii_of_string
    ("!@#$%^&*(),.?" ++ String (Ascii.ascii_of_nat 34) ":{}|<>").

Definition isSpecial (a : Ascii.ascii) : bool :=
  existsb (Ascii.eqb a) specialChars.

(** [regexp.MustCompile(class).MatchString(s)] for a class of ASCII
    characters: some byte of [s] is in the class. *)
Definition MatchString (class : Ascii.ascii -> bool) (s : string) : bool :=
  existsb class (list_ascii_of_string s).

(** [ValidatePassword]: the text of the error, [None] for nil. *)
Definition ValidatePassword (password : string) : option string :=
  if (String.length password <? 8)%nat then Some "密码至少8位"
  else if (72 <? String.length password)%nat then Some "密码不能超过72位"
  else
    let hasUpper := MatchString (between "A"%char "Z"%char) password in
    let hasLower := MatchString (between "a"%char "z"%char) password in
    let hasNumber := MatchString (between "0"%char "9"%char) password in
    let hasSpecial := MatchString isSpecial password in
    if negb hasUpper then Some "密码需包含大写字母"
    else if negb hasLower then Some "密码需包含小写字母"
    else if negb hasNumber then Some "密码需包含数字"
    else if negb hasSpecial then Some "密码需包含特殊字符"
    else None.

Section Register.
(** The verdict of the validator on the tags of [RegisterRequest] other
    than [required]: [min=3,max=20] on the name, [min=8] on the password,
    [email] on the address. *)
Variable tags_ok : RegisterRequest -> bool.

(** [c.ShouldBindJSON(&req)] for [RegisterRequest]. *)
Definition ShouldBindRegister (body : option RegisterRequest)
  : option RegisterRequest :=
  match body with
  | None => None
  | Some req =>
      if String.eqb (reg_Username req) "" || String.eqb (reg_Password req) ""
         || String.eqb (reg_Email req) "" || negb (tags_ok req)
      then None else Some req
  end.

(** [registerHandler]; [rand] is what [rand.Reader] yields and [now] the
    reading of [time.Now()]. *)
Definition registerHandler (rand : option string) (now : Z)
           (body : option RegisterRequest) (w : World) : Response * World :=
  match ShouldBindRegister body with
  | None =>
      ((gin.StatusBadRequest, gin.H [("error", gin.JStr msgBadRequest)]), w)
  | Some req =>
      (* 1. the strength of the password *)
      match ValidatePassword (reg_Password req) with
      | Some msg => ((gin.StatusBadRequest, gin.H [("error", gin.JStr msg)]), w)
      | None =>
          (* 2. the name must be free *)
          match users w !! reg_Username req with
          | Some _ =>
              ((gin.StatusConflict, gin.H [("error", gin.JStr "用户名已存在")]), w)
          | None =>
              (* 3. the hash *)
              match HashPassword rand (reg_Password req) with
              | inr _ =>
                  ((gin.StatusInternalServerError,
                    gin.H [("error", gin.JStr "服务器错误")]), w)
              | inl hash =>
                  (* 4. the user *)
                  let user :=
                    {| ID := nextID w;
                       Username := reg_Username req;
                       PasswordHash := hash;
                       Email := reg_Email req;
                       CreatedAt := now |} in
                  let w :=
                    {| users := <[reg_Username req := user]> (users w);
                       nextID := uint64 (nextID w + 1);
                       loginAttempts := loginAttempts w;
                       checked := checked w |} in
                  ((gin.StatusCreated,
                    gin.H [("message", gin.JStr "注册成功");
                           ("user_id", gin.JNum (ID user))]), w)
              end
          end
      end
  end.

End Register.

(** A request to the server: a login, or a registration together with
    what the random source and the clock yield while it is served. *)
Inductive Request :=
| Login (body : option LoginRequest)
| Register (rand : option string) (now : Z) (body : option RegisterRequest).

(** The server handles one request. *)
Definition serve (tags_ok : RegisterRequest -> bool) (r : Request) (w : World)
  : Response * World :=
  match r with
  | Login body => loginHandler body w
  | Register rand now body => registerHandler tags_ok rand now body w
  end.

(** The world after a series of requests. *)
Fixpoint serve_all (tags_ok : RegisterRequest -> bool) (rs : list Request)
         (w : World) : World :=
  match rs with
  | [] => w
  | r :: rest => serve_all tags_ok rest (snd (serve tags_ok r w))
  end.

(** The invariant of the user table: every user is stored under its own
    name with an id below [nextID] and a bcrypt hash of the default cost,
    and no two users share an id. *)
Definition table_ok (w : World) : Prop :=
  1 <= nextID w
  /\ (forall name user, users w !! name = Some user ->
         Username user = name
         /\ 1 <= ID user < nextID w
         /\ exists salt password,
              PasswordHash user = bcrypt.Hashed bcrypt.DefaultCost salt password
              /\ ValidatePassword password = None)
  /\ (forall n1 n2 u1 u2, users w !! n1 = Some u1 -> users w !! n2 = Some u2 ->
         ID u1 = ID u2 -> n1 = n2).

(** The world after a registration that succeeded. *)
Definition registered (now : Z) (req : RegisterRequest) (salt : string)
           (w : World) : World :=
  {| users :=
       <[reg_Username req :=
           {| ID := nextID w;
              Username := reg_Username req;
              PasswordHash :=
                bcrypt.Hashed bcrypt.DefaultCost salt (reg_Password req);
              Email := reg_Email req;
              CreatedAt := now |}]> (users w);
     nextID := uint64 (nextID w + 1);
     loginAttempts := loginAttempts w;
     checked := checked w |}.

End RegisterLogin.

(** ** strings *)

Module strings.

(** [strings.CutPrefix(s, prefix)]: what follows [prefix] in [s]. *)
Fixpoint CutPrefix (s prefix : string) {struct prefix} : option string :=
  match prefix, s with
  | EmptyString, _ => Some s
  | String a prefix', String b s' =>
      if Ascii.eqb a b then CutPrefix s' prefix' else None
  | String _ _, EmptyString => None
  end.

(** [strings.HasPrefix(s, prefix)] *)
Definition HasPrefix (s prefix : string) : bool :=
  match CutPrefix s prefix with
  | Some _ => true
  | None => false
  end.

(** [strings.Cut(s, sep)]: the text before and after the first [sep]. *)
Fixpoint Cut (s sep : string) : option (string * string) :=
  match CutPrefix s sep with
  | Some after => Some ("", after)
  | None =>
      match s with
      | EmptyString => None
      | String a s' =>
          match Cut s' sep with
          | Some (before, after) => Some (String a before, after)
          | None => None
          end
      end
  end.

(** The loop of [genSplit]: cut at [sep] at most [k] times. *)
Fixpoint split_at_most (k : nat) (s sep : string) : list string :=
  match k with
  | O => [s]
  | S k' =>
      match Cut s sep with
      | None => [s]
      | Some (before, after) => before :: split_at_most k' after sep
      end
  end.

(** [strings.SplitN(s, sep, n)] for a non-empty [sep]: nil for [n = 0];
    at most [n] parts, the last one the unsplit rest; all parts for
    [n < 0]. [genSplit] caps [n] at [len(s) + 1]. *)
Definition SplitN (s sep : string) (n : Z) : list string :=
  if n =? 0 then []
  else
    let cap := Z.of_nat (String.length s) + 1 in
    let n := if (n <? 0) || (cap <? n) then cap else n in
    split_at_most (Z.to_nat (n - 1)) s sep.

End strings.

(** ** 08-gin-中间件/examples/04-middleware-chain *)

Module MiddlewareChain.
Import gin.

(** [Middleware1] *)
Definition Middleware1 : HandlerFunc := fun Next c =>
  let c := Println "→ M1 进入" c in
  let c := Next c in
  Println "← M1 退出" c.

(** [Middleware2] *)
Definition Middleware2 : HandlerFunc := fun Next c =>
  let c := Println "  → M2 进入" c in
  if String.eqb (Query "abort" c) "true" then
    let c := Println "  ✗ M2 终止请求" c in
    let c := AbortWithStatusJSON StatusBadRequest
               (H [("message", JStr "请求被终止")]) c in
    Println "  ← M2 退出（Abort 后）" c
  else
    let c := Next c in
    Println "  ← M2 退出" c.

(** [Middleware3] *)
Definition Middleware3 : HandlerFunc := fun Next c =>
  let c := Println "    → M3 进入" c in
  let c := Next c in
  Println "    ← M3 退出" c.

(** The handler of [GET /]. *)
Definition rootHandler : HandlerFunc := fun _ c =>
  let c := Println ">>> Handler 执行" c in
  JSON StatusOK (H [("message", JStr "OK")]) c.

(** The handler of [GET /abort]. *)
Definition abortHandler : HandlerFunc := fun _ c =>
  let c := Println ">>> Handler 执行（不应该看到这条）" c in
  JSON StatusOK (H [("message", JStr "OK")]) c.

(** [r.Use(Middleware1()); r.Use(Middleware2()); r.Use(Middleware3())]
    and then the route's handler. *)
Definition chain (handler : HandlerFunc) : HandlersChain :=
  [Middleware1; Middleware2; Middleware3; handler].

End MiddlewareChain.

(** ** 08-gin-中间件/examples/03-auth-middleware *)

Module AuthMiddlewareExample.
Import gin.

Record User := { ID : Z; Username : string; Role : string }.

(** [validateToken]: a lookup in the two-entry table [validTokens]. *)
Definition validTokens : gmap string User :=
  <["valid-admin-token" := {| ID := 2; Username := "admin"; Role := "admin" |}]>
    (<["valid-user-token" := {| ID := 1; Username := "tom"; Role := "user" |}]> ∅).

Definition validateToken (token : string) : option User := validTokens !! token.

(** [AuthMiddleware] *)
Definition AuthMiddleware : HandlerFunc := fun Next c =>
  let authHeader := GetHeader "Authorization" c in
  if String.eqb authHeader "" then
    AbortWithStatusJSON StatusUnauthorized
      (H [("code", JNum 401); ("message", JStr "未提供认证令牌")]) c
  else
    let parts := strings.SplitN authHeader " " 2 in
    if negb (length parts =? 2)%nat || negb (String.eqb (nth 0 parts "") "Bearer") then
      AbortWithStatusJSON StatusUnauthorized
        (H [("code", JNum 401);
            ("message", JStr "认证格式错误，应为: Bearer <token>")]) c
    else
      let token := nth 1 parts "" in
      let c := note_verify token c in
      match validateToken token with
      | None =>
          AbortWithStatusJSON StatusUnauthorized
            (H [("code", JNum 401); ("message", JStr "无效的令牌")]) c
      | Some user =>
          let c := Set_ "user_id" (AInt (ID user)) c in
          let c := Set_ "username" (AString (Username user)) c in
          let c := Set_ "role" (AString (Role user)) c in
          Next c
      end.

(** [role != "admin"] for a [role] of type [any]. *)
Definition any_is_string (a : any) (s : string) : bool :=
  match a with
  | AString x => String.eqb x s
  | _ => false
  end.

(** [AdminMiddleware] *)
Definition AdminMiddleware : HandlerFunc := fun Next c =>
  match Get "role" c with
  | Some role =>
      if negb (any_is_string role "admin") then
        AbortWithStatusJSON StatusForbidden
          (H [("code", JNum 403); ("message", JStr "需要管理员权限")]) c
      else Next c
  | None =>
      AbortWithStatusJSON StatusForbidden
        (H [("code", JNum 403); ("message", JStr "需要管理员权限")]) c
  end.

(** [adminDashboard] *)
Definition adminDashboard : HandlerFunc := fun _ c =>
  JSON StatusOK
    (H [("code", JNum 0);
        ("message", JStr "success");
        ("data", H [("dashboard", JStr "管理员仪表盘")])]) c.

(** [getMeHandler] *)
Definition getMeHandler : HandlerFunc := fun _ c =>
  let userID := Get "user_id" c in
  let username := Get "username" c in
  let role := Get "role" c in
  JSON StatusOK
    (H [("code", JNum 0);
        ("message", JStr "success");
        ("data", H [("user_id", render userID);
                    ("username", render username);
                    ("role", render role)])]) c.

(** The chain of [GET /admin/dashboard]:
    [admin.Use(AuthMiddleware()); admin.Use(AdminMiddleware())]. *)
Definition admin_route : HandlersChain :=
  [AuthMiddleware; AdminMiddleware; adminDashboard].

End AuthMiddlewareExample.

(** ** 15-认证-jwt/examples/01-jwt-basics *)

Module JwtBasics.

Definition jwtSecret : string := "your-256-bit-secret-key-here!!!".

Record Claims := {
  UserID : Z;
  Username : string;
  Role : string;
  Registered : jwt.RegisteredClaims
}.

#[global] Instance Claims_eq_dec : EqDecision Claims.
Proof. solve_decision. Defined.
#[global] Instance Claims_jwt : jwt.Claims Claims :=
  {| jwt.registered := Registered |}.

(** The claims [GenerateToken] builds. [now k] is the [k]-th reading of
    [time.Now()] in the call. *)
Definition newClaims (now : nat -> Z) (userID : Z) (username role : string)
  : Claims :=
  {| UserID := userID;
     Username := username;
     Role := role;
     Registered :=
       {| jwt.Issuer := "go-web-tutorial";
          jwt.Subject := username;
          jwt.Audience := [];
          jwt.ExpiresAt := jwt.NewNumericDate (now 0%nat + 2 * jwt.hour);
          jwt.IssuedAt := jwt.NewNumericDate (now 1%nat);
          jwt.NotBefore := jwt.NewNumericDate (now 2%nat);
          jwt.ID := "" |} |}.

(** [GenerateToken]; [secret] is the value of the variable [jwtSecret]. *)
Definition GenerateToken (secret : string) (now : nat -> Z)
           (userID : Z) (username role : string)
  : jwt.TokenString Claims + jwt.Error :=
  let claims := newClaims now userID username role in
  jwt.NewWithClaims_SignedString jwt.SigningMethodHS256 claims secret.

(** The key function of [ParseToken]: it keeps the HMAC methods. *)
Definition keyFunc (secret : string) : jwt.Keyfunc Claims := fun token =>
  match jwt.Method token with
  | jwt.SigningMethodHMAC _ => inl secret
  | _ =>
      inr [jwt.Custom ("unexpected signing method: "
                       ++ default "" (jwt.alg (jwt.TokenHeader token)))]
  end.

(** [ParseToken] *)
Definition ParseToken (secret : string) (now : Z)
           (tokenString : jwt.TokenString Claims) : Claims + jwt.Error :=
  match jwt.ParseWithClaims now tokenString (keyFunc secret) with
  | inr err => inr err
  | inl token =>
      if jwt.Valid token then inl (jwt.TokenClaims token)
      else inr [jwt.Custom "invalid token"]
  end.

(** The claims [GenerateExpiredToken] builds. *)
Definition expiredClaims (now : nat -> Z) (userID : Z) (username : string)
  : Claims :=
  {| UserID := userID;
     Username := username;
     Role := "";
     Registered :=
       {| jwt.Issuer := "";
          jwt.Subject := "";
          jwt.Audience := [];
          jwt.ExpiresAt := jwt.NewNumericDate (now 0%nat + -1 * jwt.hour);
          jwt.IssuedAt := jwt.NewNumericDate (now 1%nat + -2 * jwt.hour);
          jwt.NotBefore := None;
          jwt.ID := "" |} |}.

(** [GenerateExpiredToken] *)
Definition GenerateExpiredToken (secret : string) (now : nat -> Z)
           (userID : Z) (username : string)
  : jwt.TokenString Claims + jwt.Error :=
  let claims := expiredClaims now userID username in
  jwt.NewWithClaims_SignedString jwt.SigningMethodHS256 claims secret.

End JwtBasics.

(** ** 15-认证-jwt/examples/02-gin-auth *)

Module GinAuth.
Import gin.

Definition jwtSecret : string := "your-256-bit-secret-key-here!!!".

Record Claims := {
  UserID : Z;
  Username : string;
  Role : string;
  Registered : jwt.RegisteredClaims
}.

#[global] Instance Claims_eq_dec : EqDecision Claims.
Proof. solve_decision. Defined.
#[global] Instance Claims_jwt : jwt.Claims Claims :=
  {| jwt.registered := Registered |}.

(** The claims [generateToken] builds. [now k] is the [k]-th reading of
    [time.Now()] in the call; [secret] below is the value of the variable
    [jwtSecret]. *)
Definition newClaims (now : nat -> Z) (userID : Z) (username role : string)
           (duration : Z) : Claims :=
  {| UserID := userID;
     Username := username;
     Role := role;
     Registered :=
       {| jwt.Issuer := "go-web-tutorial";
          jwt.Subject := "";
          jwt.Audience := [];
          jwt.ExpiresAt := jwt.NewNumericDate (now 0%nat + duration);
          jwt.IssuedAt := jwt.NewNumericDate (now 1%nat);
          jwt.NotBefore := None;
          jwt.ID := "" |} |}.

(** [generateToken] *)
Definition generateToken (secret : string) (now : nat -> Z)
           (userID : Z) (username role : string) (duration : Z)
  : jwt.TokenString Claims + jwt.Error :=
  let claims := newClaims now userID username role duration in
  jwt.NewWithClaims_SignedString jwt.SigningMethodHS256 claims secret.

(** [parseToken] *)
Definition parseToken (secret : string) (now : Z)
           (tokenString : jwt.TokenString Claims) : Claims + jwt.Error :=
  match jwt.ParseWithClaims now tokenString (fun _ => inl secret) with
  | inr err => inr err
  | inl token =>
      if jwt.Valid token then inl (jwt.TokenClaims token)
      else inr [jwt.ErrSignatureInvalid]
  end.

Section Middleware.
(** The variable [jwtSecret], the clock during the request, and how
    the text after [Bearer] reads as a token. *)
Variable secret : string.
Variable now : Z.
Variable wire : string -> jwt.TokenString Claims.

(** [JWTAuthMiddleware] *)
Definition JWTAuthMiddleware : HandlerFunc := fun Next c =>
  let authHeader := GetHeader "Authorization" c in
  if String.eqb authHeader "" then
    let c := JSON StatusUnauthorized (H [("error", JStr "缺少认证头")]) c in
    Abort c
  else
    let parts := strings.SplitN authHeader " " 2 in
    if negb (length parts =? 2)%nat
       || negb (String.eqb (nth 0 parts "") "Bearer") then
      let c := JSON StatusUnauthorized (H [("error", JStr "认证头格式错误")]) c in
      Abort c
    else
      let c := note_verify (nth 1 parts "") c in
      match parseToken secret now (wire (nth 1 parts "")) with
      | inr _ =>
          let c := JSON StatusUnauthorized
                     (H [("error", JStr "token 无效或已过期")]) c in
          Abort c
      | inl claims =>
          let c := Set_ "userID" (AUint (UserID claims)) c in
          let c := Set_ "username" (AString (Username claims)) c in
          let c := Set_ "role" (AString (Role claims)) c in
          Next c
      end.
End Middleware.

(** [adminHandler] *)
Definition adminHandler : HandlerFunc := fun _ c =>
  JSON StatusOK (H [("message", JStr "欢迎管理员!")]) c.

(** [role != requiredRole] for a [role] of type [any]. *)
Definition any_is_string (a : any) (s : string) : bool :=
  match a with
  | AString x => String.eqb x s
  | _ => false
  end.

(** [RoleMiddleware] *)
Definition RoleMiddleware (requiredRole : string) : HandlerFunc := fun Next c =>
  match Get "role" c with
  | Some role =>
      if negb (any_is_string role requiredRole) then
        let c := JSON StatusForbidden (H [("error", JStr "权限不足")]) c in
        Abort c
      else Next c
  | None =>
      let c := JSON StatusForbidden (H [("error", JStr "权限不足")]) c in
      Abort c
  end.

(** [profileHandler] *)
Definition profileHandler : HandlerFunc := fun _ c =>
  let userID := Get "userID" c in
  let username := Get "username" c in
  let role := Get "role" c in
  JSON StatusOK
    (H [("user_id", render userID);
        ("username", render username);
        ("role", render role);
        ("message", JStr "个人信息获取成功")]) c.

(** The chain of [GET /api/profile]: [protected.Use(JWTAuthMiddleware())]. *)
Definition profile_route (secret : string) (now : Z)
           (wire : string -> jwt.TokenString Claims) : HandlersChain :=
  [JWTAuthMiddleware secret now wire; profileHandler].

End GinAuth.

(** ** 15-认证-jwt/examples/03-protected-routes *)

Module ProtectedRoutes.
Import gin.

Definition jwtSecret : string := "your-256-bit-secret-key-here!!!".

Record Claims := {
  UserID : Z;
  Username : string;
  Roles : list string;
  Permissions : list string;
  Registered : jwt.RegisteredClaims
}.

#[global] Instance Claims_eq_dec : EqDecision Claims.
Proof. solve_decision. Defined.
#[global] Instance Claims_jwt : jwt.Claims Claims :=
  {| jwt.registered := Registered |}.

(** The claims [generateToken] builds. *)
Definition newClaims (now : nat -> Z) (userID : Z) (username : string)
           (roles permissions : list string) : Claims :=
  {| UserID := userID;
     Username := username;
     Roles := roles;
     Permissions := permissions;
     Registered :=
       {| jwt.Issuer := "";
          jwt.Subject := "";
          jwt.Audience := [];
          jwt.ExpiresAt := jwt.NewNumericDate (now 0%nat + 24 * jwt.hour);
          jwt.IssuedAt := jwt.NewNumericDate (now 1%nat);
          jwt.NotBefore := None;
          jwt.ID := "" |} |}.

(** [generateToken] *)
Definition generateToken (secret : string) (now : nat -> Z)
           (userID : Z) (username : string) (roles permissions : list string)
  : jwt.TokenString Claims + jwt.Error :=
  let claims := newClaims now userID username roles permissions in
  jwt.NewWithClaims_SignedString jwt.SigningMethodHS256 claims secret.

(** [parseToken] *)
Definition parseToken (secret : string) (now : Z)
           (tokenString : jwt.TokenString Claims) : Claims + jwt.Error :=
  match jwt.ParseWithClaims now tokenString (fun _ => inl secret) with
  | inr err => inr err
  | inl token =>
      if jwt.Valid token then inl (jwt.TokenClaims token)
      else inr [jwt.ErrSignatureInvalid]
  end.

Section Middleware.
Variable secret : string.
Variable now : Z.
Variable wire : string -> jwt.TokenString Claims.

(** [AuthRequired] *)
Definition AuthRequired : HandlerFunc := fun Next c =>
  let authHeader := GetHeader "Authorization" c in
  if String.eqb authHeader "" then
    let c := JSON StatusUnauthorized (H [("error", JStr "需要登录")]) c in
    Abort c
  else
    let parts := strings.SplitN authHeader " " 2 in
    if negb (length parts =? 2)%nat
       || negb (String.eqb (nth 0 parts "") "Bearer") then
      let c := JSON StatusUnauthorized (H [("error", JStr "认证格式错误")]) c in
      Abort c
    else
      let c := note_verify (nth 1 parts "") c in
      match parseToken secret now (wire (nth 1 parts "")) with
      | inr _ =>
          let c := JSON StatusUnauthorized (H [("error", JStr "token 无效")]) c in
          Abort c
      | inl claims =>
          let c := Set_ "userID" (AUint (UserID claims)) c in
          let c := Set_ "username" (AString (Username claims)) c in
          let c := Set_ "roles" (AStrings (Roles claims)) c in
          let c := Set_ "permissions" (AStrings (Permissions claims)) c in
          Next c
      end.
End Middleware.

(** The inner loop of [RequireRole]: does a user role equal [required]? *)
Fixpoint has_role (userRoles : list string) (required : string) : bool :=
  match userRoles with
  | [] => false
  | userRole :: rest =>
      if String.eqb userRole required then true else has_role rest required
  end.

(** The outer loop of [RequireRole]: [true] when some iteration reaches
    [c.Next(); return]. *)
Fixpoint any_role (roles userRoles : list string) : bool :=
  match roles with
  | [] => false
  | required :: rest =>
      if has_role userRoles required then true else any_role rest userRoles
  end.

(** [RequireRole] *)
Definition RequireRole (roles : list string) : HandlerFunc := fun Next c =>
  let userRoles := GetStringSlice "roles" c in
  if any_role roles userRoles then Next c
  else
    let c := JSON StatusForbidden (H [("error", JStr "角色权限不足")]) c in
    Abort c.

(** The loop of [RequirePermission]. *)
Fixpoint has_permission (permissions : list string) (required : string) : bool :=
  match permissions with
  | [] => false
  | perm :: rest =>
      if String.eqb perm required then true else has_permission rest required
  end.

(** [RequirePermission] *)
Definition RequirePermission (required : string) : HandlerFunc := fun Next c =>
  let permissions := GetStringSlice "permissions" c in
  if has_permission permissions required then Next c
  else
    let c := JSON StatusForbidden
               (H [("error", JStr "权限不足"); ("required", JStr required)]) c in
    Abort c.

(** [createProductHandler] *)
Definition createProductHandler : HandlerFunc := fun _ c =>
  JSON StatusCreated (H [("message", JStr "产品创建成功")]) c.

(** [listUsersHandler] *)
Definition listUsersHandler : HandlerFunc := fun _ c =>
  JSON StatusOK (H [("users", JArr [JStr "admin"; JStr "tom"; JStr "jerry"])]) c.

(** The chain of [POST /products]: [products.Use(AuthRequired())] and
    [RequirePermission("product:create")] on the route. *)
Definition create_product_route (secret : string) (now : Z)
           (wire : string -> jwt.TokenString Claims) : HandlersChain :=
  [AuthRequired secret now wire; RequirePermission "product:create";
   createProductHandler].

End ProtectedRoutes.

(** ** Shapes of interceptors

  The onion model of the chain example, for any code before and after
  the call of [c.Next()]. *)

Module Interceptors.
Import gin.

(** Code that neither reads nor moves the position in the chain: it
    calls none of [Next], [Abort], [IsAborted]. *)
Definition cursor_free (f : Context -> Context) : Prop :=
  forall i c, f (set_index i c) = set_index i (f c).



Abbreviation Layer := ((Context -> Context) * (Context -> Context))%type.





End Interceptors.

(** ** Sample requests and states *)

Module Samples.
Import gin Interceptors.

(** [GET /abort?abort=true] *)
Definition abort_request : Context :=
  newContext {| Header := ∅; URLQuery := {["abort" := "true"]} |}.

(** [GET /] *)
Definition plain_request : Context :=
  newContext {| Header := ∅; URLQuery := ∅ |}.

(** A request with the given [Authorization] header. *)
Definition authorized_request (value : string) : Context :=
  newContext {| Header := {["Authorization" := value]}; URLQuery := ∅ |}.




(** A context in which the authentication middleware has stored roles. *)
Definition with_roles (roles : list string) : Context :=
  Set_ "roles" (AStrings roles) plain_request.

(** The user [tom], registered with the password [Secr3t!123]. *)
Definition tom : RegisterLogin.User :=
  {| RegisterLogin.ID := 1;
     RegisterLogin.Username := "tom";
     RegisterLogin.PasswordHash := bcrypt.Hashed 10 "salt" "Secr3t!123";
     RegisterLogin.Email := "tom@example.com";
     RegisterLogin.CreatedAt := 0 |}.

(** [tom] is registered and has failed to log in [n] times. *)
Definition tom_world (n : Z) : RegisterLogin.World :=
  {| RegisterLogin.users := {["tom" := tom]};
     RegisterLogin.nextID := 2;
     RegisterLogin.loginAttempts := {["tom" := n]};
     RegisterLogin.checked := [] |}.

(** Nobody is registered; logins as [tom] have failed [n] times. *)
Definition nobody_world (n : Z) : RegisterLogin.World :=
  {| RegisterLogin.users := ∅;
     RegisterLogin.nextID := 1;
     RegisterLogin.loginAttempts := {["tom" := n]};
     RegisterLogin.checked := [] |}.

(** Nobody is registered and nobody has failed yet. *)
Definition empty_world : RegisterLogin.World :=
  {| RegisterLogin.users := ∅;
     RegisterLogin.nextID := 1;
     RegisterLogin.loginAttempts := ∅;
     RegisterLogin.checked := [] |}.

(** The header of a token signed with the HMAC of hash [h]. *)
Definition hmac_header (h : jwt.HashAlg) : jwt.Header :=
  {| jwt.typ := Some "JWT"; jwt.alg := Some (jwt.Alg (jwt.SigningMethodHMAC h)) |}.

(** A token that names the HMAC of hash [h] in its header and carries
    that HMAC of its header and claims under [secret]. *)
Definition hmac_token {C : Type} (h : jwt.HashAlg) (secret : string) (claims : C)
  : jwt.TokenString C :=
  jwt.Compact (hmac_header h) claims
    (Some (jwt.HMACsum h secret (hmac_header h) claims)).

(** Claims of [admin] that expire at second 7200. *)
Definition admin_claims : GinAuth.Claims :=
  GinAuth.newClaims (fun _ => 0) 1 "admin" "admin" (2 * jwt.hour).

(** The same claims in the struct of the jwt-basics example. *)
Definition basic_claims : JwtBasics.Claims :=
  {| JwtBasics.UserID := 1;
     JwtBasics.Username := "admin";
     JwtBasics.Role := "admin";
     JwtBasics.Registered := GinAuth.Registered admin_claims |}.

(** The same claims in the struct of the protected-routes example. *)
Definition protected_claims : ProtectedRoutes.Claims :=
  ProtectedRoutes.newClaims (fun _ => 0) 1 "admin" ["admin"; "user"]
    ["product:create"].

(** The header of an unsigned token, and the empty signature. *)
Definition none_header : jwt.Header :=
  {| jwt.typ := Some "JWT"; jwt.alg := Some "none" |}.

Definition no_signature {C : Type} : option (jwt.Signature C) :=
  Some (jwt.RawSig "").

(** A reading of token strings in which the text [name] is [token] and
    every other text is malformed. *)
Definition wire_one {C : Type} (name : string) (token : jwt.TokenString C)
  : string -> jwt.TokenString C :=
  fun s => if String.eqb s name then token else jwt.Malformed s.

(** A two-hour token for [tom] with the role [user], issued at instant 0. *)
Definition tom_token : jwt.TokenString GinAuth.Claims :=
  match GinAuth.generateToken GinAuth.jwtSecret (fun _ => 0) 7 "tom" "user"
          (2 * jwt.hour) with
  | inl token => token
  | inr _ => jwt.Malformed ""
  end.

(** The route [/api/admin] of the gin-auth example with the gate set to
    [role], as seen one minute after [tom_token] was issued. *)
Definition gated_route (role : string) : HandlersChain :=
  [GinAuth.JWTAuthMiddleware GinAuth.jwtSecret jwt.minute
     (wire_one "tom-token" tom_token);
   GinAuth.RoleMiddleware role;
   GinAuth.adminHandler].

(** Half a second past 2023-11-14 22:13:20 UTC. *)
Definition some_instant : Z := 1700000000 * jwt.second + 500000000.

End Samples.

(** * Properties *)

(** ** The handler chain *)

Section Chain.
Import gin Interceptors.

Lemma set_index_twice i j c : set_index i (set_index j c) = set_index i c.
Proof. reflexivity. Qed.


Lemma int8_small z : -128 <= z < 128 -> int8 z = z.
Proof.
  intros Hz. unfold int8.
  rewrite Z.mod_small by lia. lia.
Qed.


Lemma cursor_free_absorb f i j c :
  cursor_free f -> set_index i (f (set_index j c)) = set_index i (f c).
Proof. intros Hf. rewrite Hf. apply set_index_twice. Qed.



Lemma cursor_free_Println line : cursor_free (Println line).
Proof. intros i c. reflexivity. Qed.

Lemma cursor_free_JSON code obj : cursor_free (JSON code obj).
Proof. intros i c. reflexivity. Qed.

(** The loop is over once the index has passed the chain. *)
Lemma run_done fuel hs c :
  int8 (Z.of_nat (length hs)) <= index c -> run fuel hs c = c.
Proof.
  intros Hle. destruct fuel as [|fuel]; cbn [run]; [reflexivity|].
  destruct (index c <? int8 (Z.of_nat (length hs))) eqn:E; [|reflexivity].
  apply Z.ltb_lt in E. lia.
Qed.

(** One turn of the loop at a handler that exists. *)
Lemma run_step fuel hs c h :
  (length hs < 63)%nat ->
  0 <= index c ->
  hs !! Z.to_nat (index c) = Some h ->
  run (S fuel) hs c
  = run fuel hs (bump (h (fun c' => run fuel hs (bump c')) c)).
Proof.
  intros Hlen Hpos Hh. cbn [run].
  pose proof (lookup_lt_Some _ _ _ Hh) as Hlt.
  rewrite int8_small by lia.
  destruct (index c <? Z.of_nat (length hs)) eqn:E.
  - destruct (index c <? 0) eqn:E0.
    + apply Z.ltb_lt in E0. lia.
    + rewrite Hh. reflexivity.
  - apply Z.ltb_ge in E. lia.
Qed.



End Chain.

Section ChainExample.
Import gin Interceptors MiddlewareChain Samples.


Ltac chain_side :=
  first [ reflexivity | cbn; lia | vm_compute; discriminate ].

(** X2. The chain of the example as registered, on a request with
    [abort=true]: the output is the five lines the example's closing
    comment lists, the answer is the 400 of [Middleware2], and neither
    [Middleware3] nor the handler (any handler) leaves a trace. *)
Lemma source_chain_abort handler c :
  Query "abort" c = "true" ->
  handleHTTPRequest (chain handler) c
  = set_index 65
      (Println "← M1 退出"
         (Println "  ← M2 退出（Abort 后）"
            (JSON StatusBadRequest (H [("message", JStr "请求被终止")])
               (Println "  ✗ M2 终止请求"
                  (Println "  → M2 进入" (Println "→ M1 进入" c)))))).
Proof.
  intros Hq. unfold handleHTTPRequest, Next.
  set (hs := chain handler). change (length hs) with 4%nat.
  set (c0 := bump (reset c)).
  rewrite (run_step 3 hs c0 Middleware1) by chain_side.
  unfold Middleware1.
  set (c1 := bump (Println "→ M1 进入" c0)).
  rewrite (run_step 2 hs c1 Middleware2) by chain_side.
  unfold Middleware2.
  change (Query "abort" (Println "  → M2 进入" c1)) with (Query "abort" c).
  rewrite Hq. cbn [String.eqb Ascii.eqb Bool.eqb].
  rewrite !run_done by chain_side.
  reflexivity.
Qed.

Example source_chain_abort_stdout :
  stdout (handleHTTPRequest (chain abortHandler) abort_request)
  = ["→ M1 进入"; "  → M2 进入"; "  ✗ M2 终止请求";
     "  ← M2 退出（Abort 后）"; "← M1 退出"].
Proof. vm_compute. reflexivity. Qed.

(** Without [abort=true] the seven lines of the onion appear and the
    handler answers. *)
Example source_chain_normal :
  let c := handleHTTPRequest (chain rootHandler) plain_request in
  stdout c
  = ["→ M1 进入"; "  → M2 进入"; "    → M3 进入"; ">>> Handler 执行";
     "    ← M3 退出"; "  ← M2 退出"; "← M1 退出"]
  /\ Writer c = [(StatusOK, H [("message", JStr "OK")])]
  /\ IsAborted c = false.
Proof. vm_compute. repeat split. Qed.

(** An interceptor that returns without [c.Next()] and without
    [c.Abort()] does not stop the chain: the loop of the enclosing [Next]
    starts the next handler. *)
Example return_without_abort_continues :
  stdout (handleHTTPRequest [(fun _ c => Println "gate" c); rootHandler]
            plain_request)
  = ["gate"; ">>> Handler 执行"].
Proof. vm_compute. reflexivity. Qed.

End ChainExample.

(** ** The role gate *)

Section RoleGate.
Import gin.

Lemma has_role_In userRoles required :
  ProtectedRoutes.has_role userRoles required = true <-> In required userRoles.
Proof.
  induction userRoles as [|u rest IH]; simpl.
  - split; [discriminate | tauto].
  - destruct (String.eqb_spec u required) as [->|Hne].
    + split; auto.
    + rewrite IH. split; [auto | intros [E|Hin]; [contradiction | exact Hin]].
Qed.

(** The two loops of [RequireRole] find a match exactly when some allowed
    role is one of the user's roles. *)
Lemma any_role_spec roles userRoles :
  ProtectedRoutes.any_role roles userRoles = true
  <-> exists r, In r roles /\ In r userRoles.
Proof.
  induction roles as [|required rest IH]; simpl.
  - split; [discriminate | intros (r & [] & _)].
  - destruct (ProtectedRoutes.has_role userRoles required) eqn:E.
    + split; [intros _ | reflexivity].
      exists required. split; [left; reflexivity | now apply has_role_In].
    + rewrite IH. split.
      * intros (r & Hr & Hu). exists r. split; [right; exact Hr | exact Hu].
      * intros (r & [->|Hr] & Hu).
        -- apply has_role_In in Hu. congruence.
        -- exists r. split; assumption.
Qed.

(** Once a handler has aborted, the loop that called it starts no further
    handler. *)
Lemma aborted_stops fuel hs c :
  (length hs < 63)%nat ->
  index c = abortIndex ->
  run fuel hs (bump c) = bump c.
Proof.
  intros Hlen Hidx. apply run_done.
  unfold bump. simpl index. rewrite Hidx. unfold abortIndex.
  rewrite !int8_small by lia. lia.
Qed.

(** C7. The role gates grant access exactly on any-of membership.
    [RequireRole] hands the request on ([c.Next()]) when some allowed role
    is among the roles stored for the caller, whatever the other roles
    are; when none is, it answers 403 and aborts, and the loop that
    called it starts no later handler. [RoleMiddleware], for callers with
    one role, hands the request on when the stored role is the required
    one and answers 403 and aborts otherwise. *)
Theorem role_gate_any_of (allowed : list string) (required : string)
        (Next : Context -> Context) (c : Context) :
  ((exists r, In r allowed /\ In r (GetStringSlice "roles" c)) ->
   ProtectedRoutes.RequireRole allowed Next c = Next c)
  /\ (~ (exists r, In r allowed /\ In r (GetStringSlice "roles" c)) ->
      ProtectedRoutes.RequireRole allowed Next c
      = Abort (JSON StatusForbidden (H [("error", JStr "角色权限不足")]) c)
      /\ forall fuel hs, (length hs < 63)%nat ->
           run fuel hs (bump (ProtectedRoutes.RequireRole allowed Next c))
           = bump (ProtectedRoutes.RequireRole allowed Next c))
  /\ (Get "role" c = Some (AString required) ->
      GinAuth.RoleMiddleware required Next c = Next c)
  /\ (Get "role" c <> Some (AString required) ->
      GinAuth.RoleMiddleware required Next c
      = Abort (JSON StatusForbidden (H [("error", JStr "权限不足")]) c)
      /\ forall fuel hs, (length hs < 63)%nat ->
           run fuel hs (bump (GinAuth.RoleMiddleware required Next c))
           = bump (GinAuth.RoleMiddleware required Next c)).
Proof.
  repeat split.
  - intros Hex. apply any_role_spec in Hex.
    unfold ProtectedRoutes.RequireRole. rewrite Hex. reflexivity.
  - unfold ProtectedRoutes.RequireRole.
    destruct (ProtectedRoutes.any_role allowed (GetStringSlice "roles" c)) eqn:E;
      [|reflexivity].
    apply any_role_spec in E. contradiction.
  - intros fuel hs Hlen.
    unfold ProtectedRoutes.RequireRole.
    destruct (ProtectedRoutes.any_role allowed (GetStringSlice "roles" c)) eqn:E.
    + apply any_role_spec in E. contradiction.
    + apply aborted_stops; [exact Hlen | reflexivity].
  - intros Hrole. unfold GinAuth.RoleMiddleware. rewrite Hrole.
    simpl. rewrite String.eqb_refl. reflexivity.
  - unfold GinAuth.RoleMiddleware.
    destruct (Get "role" c) as [[r| | |]|] eqn:E; simpl; try reflexivity.
    destruct (String.eqb_spec r required) as [->|Hne]; [|reflexivity].
    contradiction.
  - intros fuel hs Hlen.
    assert (Hdeny : GinAuth.RoleMiddleware required Next c
                    = Abort (JSON StatusForbidden (H [("error", JStr "权限不足")]) c)).
    { unfold GinAuth.RoleMiddleware.
      destruct (Get "role" c) as [[r| | |]|] eqn:E; simpl; try reflexivity.
      destruct (String.eqb_spec r required) as [->|Hne]; [|reflexivity].
      contradiction. }
    rewrite Hdeny. apply aborted_stops; [exact Hlen | reflexivity].
Qed.

End RoleGate.

Section RoleGateExample.
Import gin Samples.

(** A caller with the roles editor and user passes a gate that allows
    admin or user: one common role is enough. *)
Lemma role_gate_any_of_witness :
  ProtectedRoutes.RequireRole ["admin"; "user"] (Println "handler")
    (with_roles ["editor"; "user"])
  = Println "handler" (with_roles ["editor"; "user"]).
Proof.
  apply (proj1 (role_gate_any_of ["admin"; "user"] "admin" (Println "handler")
                  (with_roles ["editor"; "user"]))).
  exists "user". split.
  - simpl. right. left. reflexivity.
  - vm_compute. right. left. reflexivity.
Defined.

(** A caller with the role user alone is stopped at a gate for admin, and
    the handler behind the gate does not run. *)
Example role_gate_denies :
  let c := handleHTTPRequest
             [ProtectedRoutes.RequireRole ["admin"];
              (fun _ c => Println "handler" c)]
             (with_roles ["user"]) in
  Writer c = [(StatusForbidden, H [("error", JStr "角色权限不足")])]
  /\ stdout c = []
  /\ IsAborted c = true.
Proof. vm_compute. repeat split. Qed.

End RoleGateExample.

(** ** The Authorization header *)

Section AuthHeader.
Import gin.

Lemma CutPrefix_app prefix rest : strings.CutPrefix (prefix ++ rest) prefix = Some rest.
Proof.
  induction prefix as [|a prefix IH].
  - reflexivity.
  - change (String a prefix ++ rest) with (String a (prefix ++ rest)).
    cbn [strings.CutPrefix]. rewrite Ascii.eqb_refl. exact IH.
Qed.

Lemma CutPrefix_Some s prefix rest :
  strings.CutPrefix s prefix = Some rest -> s = prefix ++ rest.
Proof.
  revert s. induction prefix as [|a prefix IH]; intros s.
  - intros [= <-]; reflexivity.
  - destruct s as [|b s]; [discriminate|]. cbn [strings.CutPrefix].
    destruct (Ascii.eqb_spec a b) as [->|Hne]; [|discriminate].
    intros Hs. rewrite (IH s Hs). reflexivity.
Qed.

Lemma Cut_unfold s sep :
  strings.Cut s sep
  = match strings.CutPrefix s sep with
    | Some after => Some ("", after)
    | None =>
        match s with
        | EmptyString => None
        | String a s' =>
            match strings.Cut s' sep with
            | Some (before, after) => Some (String a before, after)
            | None => None
            end
        end
    end.
Proof. destruct s; reflexivity. Qed.

Lemma Cut_Some s sep before after :
  strings.Cut s sep = Some (before, after) -> s = before ++ sep ++ after.
Proof.
  revert before. induction s as [|a s IH]; intros before; rewrite Cut_unfold.
  - destruct (strings.CutPrefix "" sep) as [r|] eqn:E; [|discriminate].
    intros [= <- <-]. apply CutPrefix_Some in E. exact E.
  - destruct (strings.CutPrefix (String a s) sep) as [r|] eqn:E.
    + intros [= <- <-]. apply CutPrefix_Some in E. exact E.
    + destruct (strings.Cut s sep) as [[b r]|] eqn:Ec; [|discriminate].
      intros [= <- <-]. rewrite (IH b eq_refl). reflexivity.
Qed.

Lemma Cut_bearer token : strings.Cut ("Bearer " ++ token) " " = Some ("Bearer", token).
Proof. reflexivity. Qed.

Lemma SplitN_space_2 s :
  s <> "" ->
  strings.SplitN s " " 2
  = match strings.Cut s " " with
    | None => [s]
    | Some (before, after) => [before; after]
    end.
Proof.
  intros Hs. unfold strings.SplitN.
  destruct s as [|a s]; [contradiction|].
  replace (2 =? 0) with false by reflexivity.
  replace (2 <? 0) with false by reflexivity.
  assert (E : (Z.of_nat (String.length (String a s)) + 1 <? 2) = false).
  { apply Z.ltb_ge. cbn [String.length]. lia. }
  rewrite E. cbn [orb].
  change (Z.to_nat (2 - 1)) with 1%nat. cbn [strings.split_at_most].
  destruct (strings.Cut (String a s) " ") as [[b r]|]; reflexivity.
Qed.

Lemma header_parts s :
  s <> "" ->
  let parts := strings.SplitN s " " 2 in
  (negb (length parts =? 2)%nat || negb (String.eqb (nth 0 parts "") "Bearer"))
  = negb (strings.HasPrefix s "Bearer ").
Proof.
  intros Hs parts. subst parts. rewrite (SplitN_space_2 s Hs).
  destruct (strings.Cut s " ") as [[b r]|] eqn:Ec.
  - cbn [length Nat.eqb negb orb nth].
    destruct (String.eqb_spec b "Bearer") as [->|Hne].
    + apply Cut_Some in Ec. subst s. reflexivity.
    + unfold strings.HasPrefix.
      destruct (strings.CutPrefix s "Bearer ") as [tok|] eqn:Ep; [|reflexivity].
      apply CutPrefix_Some in Ep. subst s. rewrite Cut_bearer in Ec.
      injection Ec as <- _. contradiction.
  - cbn [length Nat.eqb negb orb].
    unfold strings.HasPrefix.
    destruct (strings.CutPrefix s "Bearer ") as [tok|] eqn:Ep; [|reflexivity].
    apply CutPrefix_Some in Ep. subst s. rewrite Cut_bearer in Ec. discriminate.
Qed.

Lemma bearer_parts token :
  strings.SplitN ("Bearer " ++ token) " " 2 = ["Bearer"; token].
Proof.
  rewrite SplitN_space_2 by discriminate. rewrite Cut_bearer. reflexivity.
Qed.

End AuthHeader.

Section AuthHeaderGate.
Import gin Samples.

(** C6 (amended). When the [Authorization] header is absent or does not
    start with the scheme [Bearer] and one space, the authentication
    middlewares answer 401 and abort, and the token verifier is not
    called: the record of its calls is unchanged and [c.Next()] is not
    reached. *)
Theorem malformed_header_short_circuits secret now wire
        (Next : Context -> Context) (c : Context) :
  strings.HasPrefix (GetHeader "Authorization" c) "Bearer " = false ->
  (exists msg,
      GinAuth.JWTAuthMiddleware secret now wire Next c
      = Abort (JSON StatusUnauthorized (H [("error", JStr msg)]) c))
  /\ (exists msg,
         AuthMiddlewareExample.AuthMiddleware Next c
         = AbortWithStatusJSON StatusUnauthorized
             (H [("code", JNum 401); ("message", JStr msg)]) c)
  /\ verified (GinAuth.JWTAuthMiddleware secret now wire Next c) = verified c
  /\ verified (AuthMiddlewareExample.AuthMiddleware Next c) = verified c.
Proof.
  intros Hpre.
  assert (Hjwt : exists msg,
             GinAuth.JWTAuthMiddleware secret now wire Next c
             = Abort (JSON StatusUnauthorized (H [("error", JStr msg)]) c)).
  { unfold GinAuth.JWTAuthMiddleware.
    destruct (String.eqb_spec (GetHeader "Authorization" c) "") as [E|E].
    - eexists. reflexivity.
    - rewrite (header_parts _ E), Hpre. cbn [negb]. eexists. reflexivity. }
  assert (Hauth : exists msg,
             AuthMiddlewareExample.AuthMiddleware Next c
             = AbortWithStatusJSON StatusUnauthorized
                 (H [("code", JNum 401); ("message", JStr msg)]) c).
  { unfold AuthMiddlewareExample.AuthMiddleware.
    destruct (String.eqb_spec (GetHeader "Authorization" c) "") as [E|E].
    - eexists. reflexivity.
    - rewrite (header_parts _ E), Hpre. cbn [negb]. eexists. reflexivity. }
  split; [exact Hjwt|]. split; [exact Hauth|].
  destruct Hjwt as [m1 ->]. destruct Hauth as [m2 ->].
  split; reflexivity.
Qed.

(** The theorem at a request with Basic credentials. *)
Lemma malformed_header_short_circuits_witness :
  let c := authorized_request "Basic dG9tOnNlY3JldA==" in
  (exists msg,
      GinAuth.JWTAuthMiddleware GinAuth.jwtSecret 0 (fun s => jwt.Malformed s)
        (Println "handler") c
      = Abort (JSON StatusUnauthorized (H [("error", JStr msg)]) c))
  /\ (exists msg,
         AuthMiddlewareExample.AuthMiddleware (Println "handler") c
         = AbortWithStatusJSON StatusUnauthorized
             (H [("code", JNum 401); ("message", JStr msg)]) c)
  /\ verified (GinAuth.JWTAuthMiddleware GinAuth.jwtSecret 0
                 (fun s => jwt.Malformed s) (Println "handler") c) = verified c
  /\ verified (AuthMiddlewareExample.AuthMiddleware (Println "handler") c)
     = verified c.
Proof.
  apply (malformed_header_short_circuits GinAuth.jwtSecret 0
           (fun s => jwt.Malformed s) (Println "handler")
           (authorized_request "Basic dG9tOnNlY3JldA==")).
  vm_compute. reflexivity.
Defined.

(** A header that starts with [Bearer] and a space reaches the verifier
    with everything behind that space as the token, spaces included. *)
Lemma bearer_header_is_forwarded secret now wire
      (Next : Context -> Context) (c : Context) (token : string) :
  GetHeader "Authorization" c = "Bearer " ++ token ->
  GinAuth.JWTAuthMiddleware secret now wire Next c
  = match GinAuth.parseToken secret now (wire token) with
    | inr _ =>
        Abort (JSON StatusUnauthorized (H [("error", JStr "token 无效或已过期")])
                 (note_verify token c))
    | inl claims =>
        Next (Set_ "role" (AString (GinAuth.Role claims))
                (Set_ "username" (AString (GinAuth.Username claims))
                   (Set_ "userID" (AUint (GinAuth.UserID claims))
                      (note_verify token c))))
    end.
Proof.
  intros Hh. unfold GinAuth.JWTAuthMiddleware. rewrite Hh.
  rewrite bearer_parts.
  replace (String.eqb ("Bearer " ++ token) "") with false by reflexivity.
  cbn [length Nat.eqb negb orb nth]. cbn [String.eqb Ascii.eqb Bool.eqb negb].
  reflexivity.
Qed.

(** C6 as stated fails: a header of three space-separated words is not
    stopped before verification. [validateToken] is called on the two
    words behind [Bearer], and only its refusal aborts the request. *)
Lemma three_words_reach_verifier :
  let c := AuthMiddlewareExample.AuthMiddleware (Println "handler")
             (authorized_request "Bearer valid-user-token extra") in
  verified c = ["valid-user-token extra"]
  /\ Writer c = [(StatusUnauthorized,
                  H [("code", JNum 401); ("message", JStr "无效的令牌")])]
  /\ stdout c = [].
Proof. vm_compute. repeat split. Qed.

(** So is a header with nothing behind [Bearer] and its space. *)
Example empty_token_reaches_verifier :
  verified (AuthMiddlewareExample.AuthMiddleware (Println "handler")
              (authorized_request "Bearer "))
  = [""].
Proof. vm_compute. reflexivity. Qed.

(** The authentication middleware stores the roles and permissions of
    the verified claims where the gates read them. *)
Lemma AuthRequired_stores_claims secret now wire
      (Next : Context -> Context) (c : Context) (token : string) claims :
  GetHeader "Authorization" c = "Bearer " ++ token ->
  ProtectedRoutes.parseToken secret now (wire token) = inl claims ->
  exists c',
    ProtectedRoutes.AuthRequired secret now wire Next c = Next c'
    /\ GetStringSlice "roles" c' = ProtectedRoutes.Roles claims
    /\ GetStringSlice "permissions" c' = ProtectedRoutes.Permissions claims
    /\ verified c' = (verified c ++ [token])%list.
Proof.
  intros Hh Hparse. unfold ProtectedRoutes.AuthRequired. rewrite Hh.
  rewrite bearer_parts.
  replace (String.eqb ("Bearer " ++ token) "") with false by reflexivity.
  cbn [length Nat.eqb negb orb nth]. cbn [String.eqb Ascii.eqb Bool.eqb negb].
  rewrite Hparse. eexists. split; [reflexivity|].
  unfold GetStringSlice, Get, Set_. cbn [Keys verified note_verify].
  rewrite lookup_insert_ne by discriminate. rewrite !lookup_insert_eq.
  repeat split.
Qed.

(** A token of role user is stopped with 403 at the gate for admin, after
    authentication and before the handler, and passes the gate for user. *)
Example token_then_role_gate :
  let denied := handleHTTPRequest (gated_route "admin")
                  (authorized_request "Bearer tom-token") in
  let granted := handleHTTPRequest (gated_route "user")
                   (authorized_request "Bearer tom-token") in
  Writer denied = [(StatusForbidden, H [("error", JStr "权限不足")])]
  /\ verified denied = ["tom-token"]
  /\ Writer granted = [(StatusOK, H [("message", JStr "欢迎管理员!")])]
  /\ Keys granted !! "username" = Some (AString "tom").
Proof. vm_compute. repeat split. Qed.

(** Without a token the same route answers 401, not 403. *)
Example no_token_is_unauthenticated :
  Writer (handleHTTPRequest (gated_route "admin") plain_request)
  = [(StatusUnauthorized, H [("error", JStr "缺少认证头")])].
Proof. vm_compute. reflexivity. Qed.

(** A well-formed header with a known token passes. *)
Example valid_token_passes :
  let c := handleHTTPRequest
             [AuthMiddlewareExample.AuthMiddleware;
              AuthMiddlewareExample.AdminMiddleware;
              (fun _ c => Println "dashboard" c)]
             (authorized_request "Bearer valid-admin-token") in
  stdout c = ["dashboard"] /\ IsAborted c = false.
Proof. vm_compute. repeat split. Qed.

End AuthHeaderGate.

(** ** Login and lockout *)

Section Login.
Import gin RegisterLogin Samples.

Lemma bind_ok username password :
  username <> "" -> password <> "" ->
  ShouldBindJSON (request username password)
  = Some {| req_Username := username; req_Password := password |}.
Proof.
  intros Hu Hp. unfold ShouldBindJSON, request. cbn [req_Username req_Password].
  destruct (String.eqb_spec username "") as [E|_]; [contradiction|].
  destruct (String.eqb_spec password "") as [E|_]; [contradiction|].
  reflexivity.
Qed.

Lemma login_locked w username password :
  username <> "" -> password <> "" ->
  isLocked username w = true ->
  loginHandler (request username password) w
  = ((StatusTooManyRequests, H [("error", JStr msgLocked)]), w).
Proof.
  intros Hu Hp Hl. unfold loginHandler.
  rewrite (bind_ok _ _ Hu Hp). cbn [req_Username req_Password].
  rewrite Hl. reflexivity.
Qed.

Lemma login_unknown w username password :
  username <> "" -> password <> "" ->
  isLocked username w = false ->
  users w !! username = None ->
  loginHandler (request username password) w
  = ((StatusUnauthorized, H [("error", JStr msgInvalid)]),
     recordFailedLogin username w).
Proof.
  intros Hu Hp Hl Hnone. unfold loginHandler.
  rewrite (bind_ok _ _ Hu Hp). cbn [req_Username req_Password].
  rewrite Hl, Hnone. reflexivity.
Qed.

Lemma login_wrong_password w username password user :
  username <> "" -> password <> "" ->
  isLocked username w = false ->
  users w !! username = Some user ->
  bcrypt.CompareHashAndPassword (PasswordHash user) password <> None ->
  loginHandler (request username password) w
  = ((StatusUnauthorized, H [("error", JStr msgInvalid)]),
     recordFailedLogin username
       (snd (CheckPassword password (PasswordHash user) w))).
Proof.
  intros Hu Hp Hl Hsome Hbad. unfold loginHandler.
  rewrite (bind_ok _ _ Hu Hp). cbn [req_Username req_Password].
  rewrite Hl, Hsome. unfold CheckPassword.
  destruct (bcrypt.CompareHashAndPassword (PasswordHash user) password);
    [reflexivity | contradiction].
Qed.

Lemma count_after_failure username w :
  default 0 (loginAttempts (recordFailedLogin username w) !! username)
  = int64 (default 0 (loginAttempts w !! username) + 1).
Proof.
  unfold recordFailedLogin, set_attempts. cbn [loginAttempts].
  rewrite lookup_insert_eq. reflexivity.
Qed.

Lemma int64_small z : - 2 ^ 63 <= z < 2 ^ 63 -> int64 z = z.
Proof.
  intros Hz. unfold int64. rewrite Z.mod_small by lia. lia.
Qed.

(** C3. Once the failure count of an identity has reached the threshold
    of five, [isLocked] holds for it and a login for it, whatever the
    password (the right one included), is answered 429 with the lockout
    message; the world is left as it was, so no user was looked up and no
    password was checked: the test comes first. *)
Theorem locked_before_credentials w username password :
  username <> "" -> password <> "" ->
  maxLoginAttempts <= default 0 (loginAttempts w !! username) ->
  isLocked username w = true
  /\ loginHandler (request username password) w
     = ((StatusTooManyRequests, H [("error", JStr msgLocked)]), w).
Proof.
  intros Hu Hp Hn.
  assert (Hl : isLocked username w = true).
  { unfold isLocked. apply Z.leb_le. exact Hn. }
  split; [exact Hl|]. apply login_locked; assumption.
Qed.

(** The theorem for [tom] after five failures, with his own password. *)
Lemma locked_before_credentials_witness :
  isLocked "tom" (tom_world 5) = true
  /\ loginHandler (request "tom" "Secr3t!123") (tom_world 5)
     = ((StatusTooManyRequests, H [("error", JStr msgLocked)]), tom_world 5).
Proof.
  apply (locked_before_credentials (tom_world 5) "tom" "Secr3t!123").
  - discriminate.
  - discriminate.
  - vm_compute. discriminate.
Defined.

(** With fewer failures the same request succeeds and clears the count. *)
Example right_password_below_threshold :
  let r := loginHandler (request "tom" "Secr3t!123") (tom_world 4) in
  fst (fst r) = StatusOK
  /\ loginAttempts (snd r) !! "tom" = None
  /\ checked (snd r) = [("Secr3t!123", bcrypt.Hashed 10 "salt" "Secr3t!123")].
Proof. vm_compute. repeat split. Qed.

(** C5 as stated fails: the answer to a locked identity and the answer
    to a wrong password differ in status and in message. *)
Lemma lockout_answer_differs :
  fst (loginHandler (request "tom" "wrong-password") (tom_world 5))
  = (StatusTooManyRequests, H [("error", JStr msgLocked)])
  /\ fst (loginHandler (request "tom" "wrong-password") (tom_world 0))
     = (StatusUnauthorized, H [("error", JStr msgInvalid)])
  /\ String.eqb msgLocked msgInvalid = false
  /\ (StatusTooManyRequests =? StatusUnauthorized) = false.
Proof. vm_compute. repeat split. Qed.

Lemma login_wrong_credentials w username password :
  username <> "" -> password <> "" ->
  isLocked username w = false ->
  wrong_credentials username password w ->
  fst (loginHandler (request username password) w)
  = (StatusUnauthorized, H [("error", JStr msgInvalid)]).
Proof.
  intros Hu Hp Hl Hw. unfold wrong_credentials in Hw.
  destruct (users w !! username) as [user|] eqn:E.
  - rewrite (login_wrong_password w username password user); auto.
  - rewrite login_unknown; auto.
Qed.

(** C5 (amended). The login endpoint tells lockout from wrong
    credentials: a locked identity gets status 429 and the message of
    [msgLocked], a request with wrong credentials for an identity that is
    not locked gets status 401 and the message of [msgInvalid], and the
    two answers differ in both. *)
Theorem lockout_answer_is_distinct w1 w2 u1 p1 u2 p2 :
  u1 <> "" -> p1 <> "" -> u2 <> "" -> p2 <> "" ->
  isLocked u1 w1 = true ->
  isLocked u2 w2 = false ->
  wrong_credentials u2 p2 w2 ->
  let r1 := fst (loginHandler (request u1 p1) w1) in
  let r2 := fst (loginHandler (request u2 p2) w2) in
  r1 = (StatusTooManyRequests, H [("error", JStr msgLocked)])
  /\ r2 = (StatusUnauthorized, H [("error", JStr msgInvalid)])
  /\ fst r1 <> fst r2
  /\ error_message r1 <> error_message r2.
Proof.
  intros Hu1 Hp1 Hu2 Hp2 Hl1 Hl2 Hw r1 r2. subst r1 r2.
  rewrite (login_locked w1 u1 p1 Hu1 Hp1 Hl1).
  rewrite (login_wrong_credentials w2 u2 p2 Hu2 Hp2 Hl2 Hw).
  repeat split; try discriminate.
Qed.

(** The theorem for [tom]: locked after five failures, refused for a wrong
    password after none. *)
Lemma lockout_answer_is_distinct_witness :
  let r1 := fst (loginHandler (request "tom" "Secr3t!123") (tom_world 5)) in
  let r2 := fst (loginHandler (request "tom" "wrong-password") (tom_world 0)) in
  r1 = (StatusTooManyRequests, H [("error", JStr msgLocked)])
  /\ r2 = (StatusUnauthorized, H [("error", JStr msgInvalid)])
  /\ fst r1 <> fst r2
  /\ error_message r1 <> error_message r2.
Proof.
  apply (lockout_answer_is_distinct (tom_world 5) (tom_world 0)
           "tom" "Secr3t!123" "tom" "wrong-password").
  - discriminate.
  - discriminate.
  - discriminate.
  - discriminate.
  - vm_compute. reflexivity.
  - vm_compute. reflexivity.
  - vm_compute. discriminate.
Defined.

Lemma users_after_failure username w :
  users (recordFailedLogin username w) = users w.
Proof. reflexivity. Qed.

Lemma other_count_after_failure username other w :
  username <> other ->
  loginAttempts (recordFailedLogin username w) !! other
  = loginAttempts w !! other.
Proof.
  intros Hne. unfold recordFailedLogin, set_attempts. cbn [loginAttempts].
  apply lookup_insert_ne. exact Hne.
Qed.

(** Failed logins for an unknown identity, counted one by one. *)
Lemma unknown_attempts_count username passwords :
  username <> "" ->
  Forall (fun p => p <> "") passwords ->
  forall w,
    users w !! username = None ->
    0 <= default 0 (loginAttempts w !! username) ->
    default 0 (loginAttempts w !! username) + Z.of_nat (length passwords)
    <= maxLoginAttempts ->
    users (attempts username passwords w) !! username = None
    /\ default 0 (loginAttempts (attempts username passwords w) !! username)
       = default 0 (loginAttempts w !! username) + Z.of_nat (length passwords).
Proof.
  intros Hu Hps. induction Hps as [|p rest Hp _ IH]; intros w Hnone Hpos Hle.
  - cbn [attempts length]. split; [exact Hnone | lia].
  - cbn [attempts]. cbn [length] in Hle.
    unfold maxLoginAttempts in *.
    assert (Hl : isLocked username w = false).
    { unfold isLocked, maxLoginAttempts. apply Z.leb_gt. lia. }
    rewrite (login_unknown w username p Hu Hp Hl Hnone). cbn [snd].
    assert (Hc : default 0 (loginAttempts (recordFailedLogin username w) !! username)
                 = default 0 (loginAttempts w !! username) + 1).
    { rewrite count_after_failure. apply int64_small. lia. }
    destruct (IH (recordFailedLogin username w)) as [Hn' Hc'].
    + rewrite users_after_failure. exact Hnone.
    + rewrite Hc. lia.
    + rewrite Hc. lia.
    + split; [exact Hn'|]. rewrite Hc', Hc. cbn [length]. lia.
Qed.

(** C9. Failed logins for an identity that was never registered are
    counted like any other: each attempt that is not yet locked out is
    answered 401 and adds one to the identity's counter, and once the
    counter has reached five the next attempt is answered 429 with the
    lockout message instead. *)
Theorem unknown_identity_gets_locked w username passwords password :
  username <> "" ->
  Forall (fun p => p <> "") passwords ->
  password <> "" ->
  users w !! username = None ->
  loginAttempts w !! username = None ->
  length passwords = 5%nat ->
  let w' := attempts username passwords w in
  (forall k, (k < 5)%nat ->
      let wk := attempts username (take k passwords) w in
      loginHandler (request username password) wk
      = ((StatusUnauthorized, H [("error", JStr msgInvalid)]),
         recordFailedLogin username wk)
      /\ default 0 (loginAttempts (recordFailedLogin username wk) !! username)
         = Z.of_nat k + 1)
  /\ default 0 (loginAttempts w' !! username) = 5
  /\ isLocked username w' = true
  /\ loginHandler (request username password) w'
     = ((StatusTooManyRequests, H [("error", JStr msgLocked)]), w').
Proof.
  intros Hu Hps Hp Hnone Hfresh Hlen w'.
  assert (Hzero : default 0 (loginAttempts w !! username) = 0)
    by (rewrite Hfresh; reflexivity).
  split.
  - intros k Hk wk. subst wk.
    destruct (unknown_attempts_count username (take k passwords) Hu
                (Forall_take _ k _ Hps) w Hnone) as [Hn Hc].
    + lia.
    + rewrite Hzero, length_take. unfold maxLoginAttempts. lia.
    + rewrite Hzero, length_take, Hlen in Hc.
      replace (k `min` 5)%nat with k in Hc by lia.
      assert (Hl : isLocked username (attempts username (take k passwords) w)
                   = false).
      { unfold isLocked, maxLoginAttempts. apply Z.leb_gt. lia. }
      split.
      * apply login_unknown; assumption.
      * rewrite count_after_failure, Hc. apply int64_small. lia.
  - destruct (unknown_attempts_count username passwords Hu Hps w Hnone)
      as [Hn Hc].
    + lia.
    + rewrite Hzero, Hlen. unfold maxLoginAttempts. lia.
    + rewrite Hzero, Hlen in Hc.
      assert (Hc5 : default 0 (loginAttempts w' !! username) = 5)
        by (subst w'; rewrite Hc; reflexivity).
      split; [exact Hc5|].
      assert (Hl : isLocked username w' = true).
      { unfold isLocked, maxLoginAttempts. apply Z.leb_le. rewrite Hc5. lia. }
      split; [exact Hl|]. apply login_locked; assumption.
Qed.

(** The theorem for an identity nobody registered, in an empty world. *)
Lemma unknown_identity_gets_locked_witness :
  let w' := attempts "ghost" ["a"; "b"; "c"; "d"; "e"] empty_world in
  (forall k, (k < 5)%nat ->
      let wk := attempts "ghost" (take k ["a"; "b"; "c"; "d"; "e"]) empty_world in
      loginHandler (request "ghost" "f") wk
      = ((StatusUnauthorized, H [("error", JStr msgInvalid)]),
         recordFailedLogin "ghost" wk)
      /\ default 0 (loginAttempts (recordFailedLogin "ghost" wk) !! "ghost")
         = Z.of_nat k + 1)
  /\ default 0 (loginAttempts w' !! "ghost") = 5
  /\ isLocked "ghost" w' = true
  /\ loginHandler (request "ghost" "f") w'
     = ((StatusTooManyRequests, H [("error", JStr msgLocked)]), w').
Proof.
  apply (unknown_identity_gets_locked empty_world "ghost"
           ["a"; "b"; "c"; "d"; "e"] "f").
  - discriminate.
  - repeat constructor; discriminate.
  - discriminate.
  - reflexivity.
  - reflexivity.
  - reflexivity.
Defined.

Lemma isLocked_attempts w1 w2 username :
  loginAttempts w1 = loginAttempts w2 ->
  isLocked username w1 = isLocked username w2.
Proof. intros E. unfold isLocked. rewrite E. reflexivity. Qed.

(** C8. Two runs of the same login request, one in a world where the
    identity is not registered and one where it is registered with
    another password, the failure counters being the same: the answers
    are equal, and so are the counters afterwards. When the identity is
    not locked out, this common answer is the 401 with the message of
    [msgInvalid], which names neither the identity nor the password. *)
Theorem failed_login_is_uniform w1 w2 username password user :
  username <> "" -> password <> "" ->
  loginAttempts w1 = loginAttempts w2 ->
  users w1 !! username = None ->
  users w2 !! username = Some user ->
  bcrypt.CompareHashAndPassword (PasswordHash user) password <> None ->
  fst (loginHandler (request username password) w1)
  = fst (loginHandler (request username password) w2)
  /\ loginAttempts (snd (loginHandler (request username password) w1))
     = loginAttempts (snd (loginHandler (request username password) w2))
  /\ (isLocked username w1 = false ->
      fst (loginHandler (request username password) w1)
      = (StatusUnauthorized, H [("error", JStr msgInvalid)])).
Proof.
  intros Hu Hp Hatt Hnone Hsome Hbad.
  pose proof (isLocked_attempts w1 w2 username Hatt) as Hlk.
  destruct (isLocked username w1) eqn:Hl1.
  - rewrite (login_locked w1 username password Hu Hp Hl1).
    rewrite (login_locked w2 username password Hu Hp (eq_sym Hlk)).
    cbn [fst snd]. repeat split; [exact Hatt | discriminate].
  - rewrite (login_unknown w1 username password Hu Hp Hl1 Hnone).
    rewrite (login_wrong_password w2 username password user Hu Hp
               (eq_sym Hlk) Hsome Hbad).
    cbn [fst snd]. repeat split.
    unfold recordFailedLogin, set_attempts, CheckPassword.
    cbn [snd loginAttempts]. rewrite Hatt. reflexivity.
Qed.

(** The theorem for [tom] with a wrong password: unknown in one world,
    registered in the other, two earlier failures in both. *)
Lemma failed_login_is_uniform_witness :
  fst (loginHandler (request "tom" "wrong-password") (nobody_world 2))
  = fst (loginHandler (request "tom" "wrong-password") (tom_world 2))
  /\ loginAttempts (snd (loginHandler (request "tom" "wrong-password")
                           (nobody_world 2)))
     = loginAttempts (snd (loginHandler (request "tom" "wrong-password")
                             (tom_world 2)))
  /\ (isLocked "tom" (nobody_world 2) = false ->
      fst (loginHandler (request "tom" "wrong-password") (nobody_world 2))
      = (StatusUnauthorized, H [("error", JStr msgInvalid)])).
Proof.
  apply (failed_login_is_uniform (nobody_world 2) (tom_world 2)
           "tom" "wrong-password" tom).
  - discriminate.
  - discriminate.
  - reflexivity.
  - reflexivity.
  - reflexivity.
  - vm_compute. discriminate.
Defined.

End Login.

(** ** Tokens *)

Section Tokens.
Import Samples.

Lemma GetSigningMethod_hmac h :
  jwt.GetSigningMethod (jwt.Alg (jwt.SigningMethodHMAC h))
  = Some (jwt.SigningMethodHMAC h).
Proof. destruct h; reflexivity. Qed.

Lemma GetSigningMethod_Some name m :
  jwt.GetSigningMethod name = Some m -> jwt.Alg m = name.
Proof.
  unfold jwt.GetSigningMethod. intros Hf.
  apply find_some in Hf as [_ He]. apply String.eqb_eq in He. exact He.
Qed.

(** A header whose [alg] resolves to an HMAC method names one. *)
Lemma names_hmac_method hdr name h :
  jwt.alg hdr = Some name ->
  jwt.GetSigningMethod name = Some (jwt.SigningMethodHMAC h) ->
  jwt.names_hmac hdr = true.
Proof.
  intros Ha Hm. apply GetSigningMethod_Some in Hm. subst name.
  unfold jwt.names_hmac. rewrite Ha. destruct h; reflexivity.
Qed.

Section AnyClaims.
Context {C : Type} `{jwt.Claims C}.

Lemma Validate_in_window now (claims : C) :
  jwt.in_validity_window (jwt.registered claims) now ->
  jwt.Validate now claims = None.
Proof.
  intros [Hexp Hnbf]. unfold jwt.Validate, jwt.verifyExpiresAt, jwt.verifyNotBefore.
  destruct (jwt.ExpiresAt (jwt.registered claims)) as [exp|].
  - apply Z.ltb_lt in Hexp. rewrite Hexp.
    destruct (jwt.NotBefore (jwt.registered claims)) as [nbf|]; [|reflexivity].
    assert (E : (now <? nbf) = false) by (apply Z.ltb_ge; lia).
    rewrite E. reflexivity.
  - destruct (jwt.NotBefore (jwt.registered claims)) as [nbf|]; [|reflexivity].
    assert (E : (now <? nbf) = false) by (apply Z.ltb_ge; lia).
    rewrite E. reflexivity.
Qed.

(** A token signed with an HMAC method under the key the key function
    returns parses, within the validity window of its claims, to a valid
    token with these claims. *)
Lemma ParseWithClaims_hmac h secret now (claims : C) (keyFunc : jwt.Keyfunc C) :
  (forall token, jwt.Method token = jwt.SigningMethodHMAC h ->
                 keyFunc token = inl secret) ->
  jwt.in_validity_window (jwt.registered claims) now ->
  exists token,
    jwt.ParseWithClaims now (hmac_token h secret claims) keyFunc = inl token
    /\ jwt.Valid token = true
    /\ jwt.TokenClaims token = claims.
Proof.
  intros Hkey Hwin.
  unfold jwt.ParseWithClaims, hmac_token, jwt.ParseUnverified.
  cbn [jwt.alg hmac_header]. rewrite GetSigningMethod_hmac.
  rewrite Hkey by reflexivity.
  cbn [jwt.Method jwt.TokenHeader jwt.TokenClaims jwt.Verify].
  rewrite bool_decide_eq_true_2 by reflexivity.
  rewrite (Validate_in_window now claims Hwin).
  eexists. repeat split.
Qed.

(** A token whose header names no HMAC method does not get past a key
    function that answers an HMAC key or an error. *)
Lemma ParseWithClaims_not_hmac now hdr (claims : C) sig (keyFunc : jwt.Keyfunc C) :
  jwt.names_hmac hdr = false ->
  exists err, jwt.ParseWithClaims now (jwt.Compact hdr claims sig) keyFunc = inr err.
Proof.
  intros Hno. unfold jwt.ParseWithClaims, jwt.ParseUnverified.
  destruct (jwt.alg hdr) as [name|] eqn:Ha; [|eexists; reflexivity].
  destruct (jwt.GetSigningMethod name) as [m|] eqn:Hm; [|eexists; reflexivity].
  destruct sig as [sig|]; [|eexists; reflexivity].
  destruct (keyFunc _) as [key|e]; [|eexists; reflexivity].
  cbn [jwt.Method jwt.TokenHeader jwt.TokenClaims].
  destruct m as [h| | | | |]; try (eexists; reflexivity).
  rewrite (names_hmac_method hdr name h Ha Hm) in Hno. discriminate.
Qed.

End AnyClaims.

(** C1 as stated fails: a token whose header names HS384, not the HS256
    of the issuer, and that carries the HMAC-SHA384 of its content under
    the server's secret is accepted, by [parseToken] and by [ParseToken]
    alike. *)
Lemma hs384_token_accepted :
  GinAuth.parseToken GinAuth.jwtSecret 0
    (hmac_token jwt.SHA384 GinAuth.jwtSecret admin_claims) = inl admin_claims
  /\ JwtBasics.ParseToken JwtBasics.jwtSecret 0
       (hmac_token jwt.SHA384 JwtBasics.jwtSecret basic_claims) = inl basic_claims
  /\ jwt.alg (hmac_header jwt.SHA384) = Some "HS384".
Proof. vm_compute. repeat split. Qed.

(** C1 (amended). A token whose header names no algorithm of the HMAC
    family (HS256, HS384, HS512) is refused with an error, whatever
    signature it carries: by [ParseToken], whose key function tests for
    the family, and by the two [parseToken], whose [[]byte] key no other
    method takes. *)
Theorem non_hmac_token_rejected secret now hdr
        (c0 : JwtBasics.Claims) (s0 : option (jwt.Signature JwtBasics.Claims))
        (c1 : GinAuth.Claims) (s1 : option (jwt.Signature GinAuth.Claims))
        (c2 : ProtectedRoutes.Claims)
        (s2 : option (jwt.Signature ProtectedRoutes.Claims)) :
  jwt.names_hmac hdr = false ->
  (exists err, JwtBasics.ParseToken secret now (jwt.Compact hdr c0 s0) = inr err)
  /\ (exists err, GinAuth.parseToken secret now (jwt.Compact hdr c1 s1) = inr err)
  /\ (exists err,
         ProtectedRoutes.parseToken secret now (jwt.Compact hdr c2 s2) = inr err).
Proof.
  intros Hno. repeat split.
  - unfold JwtBasics.ParseToken.
    destruct (ParseWithClaims_not_hmac now hdr c0 s0 (JwtBasics.keyFunc secret) Hno)
      as [err ->].
    eexists. reflexivity.
  - unfold GinAuth.parseToken.
    destruct (ParseWithClaims_not_hmac now hdr c1 s1 (fun _ => inl secret) Hno)
      as [err ->].
    eexists. reflexivity.
  - unfold ProtectedRoutes.parseToken.
    destruct (ParseWithClaims_not_hmac now hdr c2 s2 (fun _ => inl secret) Hno)
      as [err ->].
    eexists. reflexivity.
Qed.


(** The theorem for an unsigned token that names the algorithm none. *)
Lemma non_hmac_token_rejected_witness :
  (exists err,
      JwtBasics.ParseToken JwtBasics.jwtSecret 0
        (jwt.Compact none_header basic_claims no_signature) = inr err)
  /\ (exists err,
         GinAuth.parseToken GinAuth.jwtSecret 0
           (jwt.Compact none_header admin_claims no_signature) = inr err)
  /\ (exists err,
         ProtectedRoutes.parseToken ProtectedRoutes.jwtSecret 0
           (jwt.Compact none_header protected_claims no_signature) = inr err).
Proof.
  apply (non_hmac_token_rejected JwtBasics.jwtSecret 0 none_header
           basic_claims no_signature admin_claims no_signature
           protected_claims no_signature).
  reflexivity.
Defined.

Lemma Truncate_le t d : 0 < d -> jwt.Truncate t d <= t.
Proof.
  intros Hd. unfold jwt.Truncate.
  pose proof (Z.mod_pos_bound t d Hd). lia.
Qed.




(** A token that lives for less than the rest of the current second has
    equal issue and expiry instants and is expired at once. *)
Example short_lived_token_is_expired :
  match GinAuth.generateToken GinAuth.jwtSecret (fun _ => some_instant) 1
          "admin" "admin" 300000000 with
  | inl token =>
      GinAuth.parseToken GinAuth.jwtSecret some_instant token
      = inr [jwt.ErrTokenInvalidClaims; jwt.ErrTokenExpired]
  | inr _ => False
  end.
Proof. vm_compute. reflexivity. Qed.

(** The other two issuers give their tokens a fixed life of hours, so
    their fresh tokens always verify under the same clock. *)
Lemma protected_token_round_trip secret t userID username roles permissions :
  let claims := ProtectedRoutes.newClaims (fun _ => t) userID username roles
                  permissions in
  exists token,
    ProtectedRoutes.generateToken secret (fun _ => t) userID username roles
      permissions = inl token
    /\ ProtectedRoutes.parseToken secret t token = inl claims.
Proof.
  intros claims. exists (hmac_token jwt.SHA256 secret claims).
  split; [reflexivity|].
  unfold ProtectedRoutes.parseToken.
  destruct (ParseWithClaims_hmac jwt.SHA256 secret t claims (fun _ => inl secret))
    as (token & -> & Hv & Hc); [reflexivity | | rewrite Hv, Hc; reflexivity].
  split; [|exact I]. cbn.
  unfold jwt.Truncate, jwt.TimePrecision, jwt.hour, jwt.minute, jwt.second.
  pose proof (Z.mod_pos_bound (t + 24 * (60 * (60 * 1000000000))) 1000000000).
  lia.
Qed.

Lemma basic_token_round_trip secret t userID username role :
  let claims := JwtBasics.newClaims (fun _ => t) userID username role in
  exists token,
    JwtBasics.GenerateToken secret (fun _ => t) userID username role = inl token
    /\ JwtBasics.ParseToken secret t token = inl claims.
Proof.
  intros claims. exists (hmac_token jwt.SHA256 secret claims).
  split; [reflexivity|].
  unfold JwtBasics.ParseToken.
  destruct (ParseWithClaims_hmac jwt.SHA256 secret t claims
              (JwtBasics.keyFunc secret))
    as (token & -> & Hv & Hc); [| | rewrite Hv, Hc; reflexivity].
  - intros token Hm. unfold JwtBasics.keyFunc. rewrite Hm. reflexivity.
  - split; cbn.
    + unfold jwt.Truncate, jwt.TimePrecision, jwt.hour, jwt.minute, jwt.second.
      pose proof (Z.mod_pos_bound (t + 2 * (60 * (60 * 1000000000))) 1000000000).
      lia.
    + apply Truncate_le. reflexivity.
Qed.

End Tokens.

(** ** The bcrypt cost *)

Section Cost.
Import HashPasswordExample VerifyPasswordExample.

(** C10. Given a cost outside [MinCost, MaxCost] = [4, 31],
    [HashPasswordWithCost] and [NewBcryptMatcher] put the default cost of
    10 in its place without a word: the result is the one of hashing at
    the default cost, it is never the error of an invalid cost, and for a
    password within bcrypt's length limit and a working random source it
    is a hash of cost 10. *)
Theorem out_of_range_cost_defaults rand password cost :
  cost < bcrypt.MinCost \/ bcrypt.MaxCost < cost ->
  HashPasswordWithCost rand password cost = HashPassword rand password
  /\ VerifyPasswordExample.cost (NewBcryptMatcher cost) = bcrypt.DefaultCost
  /\ Hash (NewBcryptMatcher cost) rand password = HashPassword rand password
  /\ (forall c, HashPasswordWithCost rand password cost
                <> inr (bcrypt.InvalidCostError c))
  /\ (forall c, Hash (NewBcryptMatcher cost) rand password
                <> inr (bcrypt.InvalidCostError c))
  /\ (forall salt,
         rand = Some salt ->
         (String.length password <= 72)%nat ->
         HashPasswordWithCost rand password cost
         = inl (bcrypt.Hashed bcrypt.DefaultCost salt password)
         /\ Hash (NewBcryptMatcher cost) rand password
            = inl (bcrypt.Hashed bcrypt.DefaultCost salt password)).
Proof.
  intros Hout.
  assert (Hsub : (cost <? bcrypt.MinCost) || (bcrypt.MaxCost <? cost) = true).
  { apply orb_true_iff. destruct Hout as [Hlo|Hhi].
    - left. apply Z.ltb_lt. exact Hlo.
    - right. apply Z.ltb_lt. exact Hhi. }
  assert (H1 : HashPasswordWithCost rand password cost = HashPassword rand password).
  { unfold HashPasswordWithCost, HashPassword. rewrite Hsub. reflexivity. }
  assert (H2 : Hash (NewBcryptMatcher cost) rand password
               = HashPassword rand password).
  { unfold Hash, NewBcryptMatcher, HashPassword. rewrite Hsub.
    cbn [VerifyPasswordExample.cost].
    destruct (bcrypt.GenerateFromPassword rand password bcrypt.DefaultCost);
      reflexivity. }
  assert (H3 : forall c, HashPassword rand password
                         <> inr (bcrypt.InvalidCostError c)).
  { intros c. unfold HashPassword, bcrypt.GenerateFromPassword.
    destruct (72 <? String.length password)%nat; [discriminate|].
    cbn. destruct rand; discriminate. }
  split; [exact H1|]. split.
  { unfold NewBcryptMatcher. rewrite Hsub. reflexivity. }
  split; [exact H2|]. split; [rewrite H1; exact H3|].
  split; [rewrite H2; exact H3|].
  intros salt -> Hlen. rewrite H1, H2.
  unfold HashPassword, bcrypt.GenerateFromPassword.
  assert (E : (72 <? String.length password)%nat = false)
    by (apply Nat.ltb_ge; exact Hlen).
  rewrite E. split; reflexivity.
Qed.

(** The theorem at the cost 32, one above the largest bcrypt accepts. *)
Lemma out_of_range_cost_defaults_witness :
  HashPasswordWithCost (Some "salt") "Secr3t!123" 32
  = HashPassword (Some "salt") "Secr3t!123"
  /\ VerifyPasswordExample.cost (NewBcryptMatcher 32) = bcrypt.DefaultCost
  /\ Hash (NewBcryptMatcher 32) (Some "salt") "Secr3t!123"
     = HashPassword (Some "salt") "Secr3t!123"
  /\ (forall c, HashPasswordWithCost (Some "salt") "Secr3t!123" 32
                <> inr (bcrypt.InvalidCostError c))
  /\ (forall c, Hash (NewBcryptMatcher 32) (Some "salt") "Secr3t!123"
                <> inr (bcrypt.InvalidCostError c))
  /\ (forall salt,
         Some "salt" = Some salt ->
         (String.length "Secr3t!123" <= 72)%nat ->
         HashPasswordWithCost (Some "salt") "Secr3t!123" 32
         = inl (bcrypt.Hashed bcrypt.DefaultCost salt "Secr3t!123")
         /\ Hash (NewBcryptMatcher 32) (Some "salt") "Secr3t!123"
            = inl (bcrypt.Hashed bcrypt.DefaultCost salt "Secr3t!123")).
Proof.
  apply (out_of_range_cost_defaults (Some "salt") "Secr3t!123" 32).
  right. reflexivity.
Defined.

(** bcrypt itself refuses the cost 32, and hashes at the cost it is given
    when that is in range. *)
Example bcrypt_refuses_cost_32 :
  bcrypt.GenerateFromPassword (Some "salt") "Secr3t!123" 32
  = inr (bcrypt.InvalidCostError 32)
  /\ HashPasswordWithCost (Some "salt") "Secr3t!123" 12
     = inl (bcrypt.Hashed 12 "salt" "Secr3t!123").
Proof. vm_compute. split; reflexivity. Qed.

End Cost.

(** ** More on the chain example *)

Section ChainExampleMore.
Import gin Interceptors MiddlewareChain Samples.

Ltac chain_auto :=
  first [ reflexivity | cbn; lia | vm_compute; discriminate ].

(** X1. On a request whose [abort] parameter is not [true], the chain of
    the example runs as the onion of its closing comment: the three
    middlewares enter in the order of registration, the handler answers,
    and the middlewares leave in reverse order. *)
Theorem source_chain_onion c :
  Query "abort" c <> "true" ->
  handleHTTPRequest (chain rootHandler) c
  = set_index 7
      (Println "← M1 退出"
         (Println "  ← M2 退出"
            (Println "    ← M3 退出"
               (JSON StatusOK (H [("message", JStr "OK")])
                  (Println ">>> Handler 执行"
                     (Println "    → M3 进入"
                        (Println "  → M2 进入"
                           (Println "→ M1 进入" c)))))))).
Proof.
  intros Hq. apply String.eqb_neq in Hq.
  unfold handleHTTPRequest, Next.
  set (hs := chain rootHandler). change (length hs) with 4%nat.
  set (c0 := bump (reset c)).
  rewrite (run_step 3 hs c0 Middleware1) by chain_auto.
  unfold Middleware1.
  set (c1 := bump (Println "→ M1 进入" c0)).
  rewrite (run_step 2 hs c1 Middleware2) by chain_auto.
  unfold Middleware2.
  change (Query "abort" (Println "  → M2 进入" c1)) with (Query "abort" c).
  rewrite Hq.
  set (c2 := bump (Println "  → M2 进入" c1)).
  rewrite (run_step 1 hs c2 Middleware3) by chain_auto.
  unfold Middleware3.
  set (c3 := bump (Println "    → M3 进入" c2)).
  rewrite (run_step 0 hs c3 rootHandler) by chain_auto.
  rewrite !run_done by chain_auto.
  reflexivity.
Qed.

Lemma source_chain_onion_witness :
  handleHTTPRequest (chain rootHandler) plain_request
  = set_index 7
      (Println "← M1 退出"
         (Println "  ← M2 退出"
            (Println "    ← M3 退出"
               (JSON StatusOK (H [("message", JStr "OK")])
                  (Println ">>> Handler 执行"
                     (Println "    → M3 进入"
                        (Println "  → M2 进入"
                           (Println "→ M1 进入" plain_request)))))))).
Proof.
  apply (source_chain_onion plain_request).
  vm_compute. discriminate.
Defined.

(** The theorem for [GET /abort?abort=true]. *)
Lemma source_chain_abort_witness :
  handleHTTPRequest (chain abortHandler) abort_request
  = set_index 65
      (Println "← M1 退出"
         (Println "  ← M2 退出（Abort 后）"
            (JSON StatusBadRequest (H [("message", JStr "请求被终止")])
               (Println "  ✗ M2 终止请求"
                  (Println "  → M2 进入"
                     (Println "→ M1 进入" abort_request)))))).
Proof. apply (source_chain_abort abortHandler abort_request). reflexivity. Defined.

End ChainExampleMore.

(** ** Routes behind the authentication middlewares *)

Section Routes.
Import gin Samples.

Ltac chain_auto :=
  first [ reflexivity | cbn; lia | vm_compute; discriminate ].

Lemma AuthMiddleware_refuses (Next : Context -> Context) c :
  strings.HasPrefix (GetHeader "Authorization" c) "Bearer " = false ->
  exists msg,
    AuthMiddlewareExample.AuthMiddleware Next c
    = AbortWithStatusJSON StatusUnauthorized
        (H [("code", JNum 401); ("message", JStr msg)]) c.
Proof.
  intros Hpre. unfold AuthMiddlewareExample.AuthMiddleware.
  destruct (String.eqb_spec (GetHeader "Authorization" c) "") as [E|E].
  - eexists. reflexivity.
  - rewrite (header_parts _ E), Hpre. cbn [negb]. eexists. reflexivity.
Qed.

Lemma AuthMiddleware_bearer (Next : Context -> Context) c token :
  GetHeader "Authorization" c = "Bearer " ++ token ->
  AuthMiddlewareExample.AuthMiddleware Next c
  = match AuthMiddlewareExample.validateToken token with
    | None =>
        AbortWithStatusJSON StatusUnauthorized
          (H [("code", JNum 401); ("message", JStr "无效的令牌")])
          (note_verify token c)
    | Some user =>
        Next (Set_ "role" (AString (AuthMiddlewareExample.Role user))
                (Set_ "username" (AString (AuthMiddlewareExample.Username user))
                   (Set_ "user_id" (AInt (AuthMiddlewareExample.ID user))
                      (note_verify token c))))
    end.
Proof.
  intros Hh. unfold AuthMiddlewareExample.AuthMiddleware. rewrite Hh.
  rewrite bearer_parts.
  replace (String.eqb ("Bearer " ++ token) "") with false by reflexivity.
  cbn [length Nat.eqb negb orb nth]. cbn [String.eqb Ascii.eqb Bool.eqb negb].
  reflexivity.
Qed.

(** The table of [validateToken] knows two tokens. *)
Lemma validateToken_cases token :
  AuthMiddlewareExample.validateToken token
  = if String.eqb token "valid-admin-token"
    then Some {| AuthMiddlewareExample.ID := 2;
                 AuthMiddlewareExample.Username := "admin";
                 AuthMiddlewareExample.Role := "admin" |}
    else if String.eqb token "valid-user-token"
    then Some {| AuthMiddlewareExample.ID := 1;
                 AuthMiddlewareExample.Username := "tom";
                 AuthMiddlewareExample.Role := "user" |}
    else None.
Proof.
  unfold AuthMiddlewareExample.validateToken, AuthMiddlewareExample.validTokens.
  destruct (String.eqb_spec token "valid-admin-token") as [->|Ha].
  - apply lookup_insert_eq.
  - rewrite lookup_insert_ne by congruence.
    destruct (String.eqb_spec token "valid-user-token") as [->|Hu].
    + apply lookup_insert_eq.
    + rewrite lookup_insert_ne by congruence. apply lookup_empty.
Qed.

(** A first handler that aborts ends the request. *)
Lemma first_handler_aborts h rest c c' :
  (forall Next, h Next (bump (reset c)) = c') ->
  index c' = abortIndex ->
  (S (length rest) < 63)%nat ->
  handleHTTPRequest (h :: rest) c = bump c'.
Proof.
  intros Hh Hidx Hlen. unfold handleHTTPRequest, Next.
  cbn [length].
  rewrite (run_step (length rest) (h :: rest) (bump (reset c)) h);
    [| cbn [length]; lia | vm_compute; discriminate | reflexivity].
  rewrite Hh. apply aborted_stops; [cbn [length]; lia | exact Hidx].
Qed.

Lemma AdminMiddleware_role (Next : Context -> Context) c role :
  Get "role" c = Some (AString role) ->
  AuthMiddlewareExample.AdminMiddleware Next c
  = if String.eqb role "admin" then Next c
    else AbortWithStatusJSON StatusForbidden
           (H [("code", JNum 403); ("message", JStr "需要管理员权限")]) c.
Proof.
  intros Hr. unfold AuthMiddlewareExample.AdminMiddleware. rewrite Hr.
  cbn [AuthMiddlewareExample.any_is_string].
  destruct (String.eqb role "admin"); reflexivity.
Qed.

(** One turn of the loop at a handler after whose return the index has
    passed the chain: the handler was the last one started, or it
    aborted, or the handlers behind it ran inside its [c.Next()]. *)
Lemma run_last fuel hs c h c' :
  (length hs < 63)%nat ->
  0 <= index c ->
  hs !! Z.to_nat (index c) = Some h ->
  h (fun x => run fuel hs (bump x)) c = c' ->
  Z.of_nat (length hs) <= index c' + 1 < 128 ->
  run (S fuel) hs c = bump c'.
Proof.
  intros Hlen Hpos Hh Hc' Hidx.
  rewrite (run_step fuel hs c h Hlen Hpos Hh), Hc'.
  apply run_done. unfold bump. cbn [index set_index].
  rewrite !int8_small by lia. lia.
Qed.

Ltac index_auto := vm_compute; split; [discriminate | reflexivity].

(** X3. The dashboard behind [AuthMiddleware] and [AdminMiddleware] is
    written for one header only, [Bearer valid-admin-token]. The token of
    the plain user is answered 403 by the second middleware; every other
    header, the absent one included, is answered 401 by the first, so a
    request that is not authenticated is never answered 403. *)
Theorem admin_route_outcomes c :
  let r := handleHTTPRequest AuthMiddlewareExample.admin_route c in
  let h := GetHeader "Authorization" c in
  (h = "Bearer valid-admin-token" ->
   Writer r
   = (Writer c
      ++ [(StatusOK,
           H [("code", JNum 0); ("message", JStr "success");
              ("data", H [("dashboard", JStr "管理员仪表盘")])])])%list
   /\ IsAborted r = false)
  /\ (h = "Bearer valid-user-token" ->
      Writer r
      = (Writer c
         ++ [(StatusForbidden,
              H [("code", JNum 403); ("message", JStr "需要管理员权限")])])%list
      /\ IsAborted r = true)
  /\ (h <> "Bearer valid-admin-token" -> h <> "Bearer valid-user-token" ->
      (exists msg,
          Writer r
          = (Writer c
             ++ [(StatusUnauthorized,
                  H [("code", JNum 401); ("message", JStr msg)])])%list)
      /\ IsAborted r = true).
Proof.
  intros r h. subst r h.
  set (hs := AuthMiddlewareExample.admin_route).
  unfold handleHTTPRequest, Next. change (length hs) with 3%nat.
  set (c0 := bump (reset c)).
  assert (Hh0 : GetHeader "Authorization" c0 = GetHeader "Authorization" c)
    by reflexivity.
  split; [|split].
  - intros Hadmin.
    set (c1 := Set_ "role" (AString "admin")
                 (Set_ "username" (AString "admin")
                    (Set_ "user_id" (AInt 2)
                       (note_verify "valid-admin-token" c0)))).
    set (c2 := bump (bump c1)).
    assert (E2 : run 1 hs c2
                 = bump (AuthMiddlewareExample.adminDashboard
                           (fun x => run 0 hs (bump x)) c2)).
    { apply (run_last 0 hs c2 AuthMiddlewareExample.adminDashboard);
        [chain_auto | chain_auto | reflexivity | reflexivity | index_auto]. }
    assert (E1 : run 2 hs (bump c1)
                 = bump (bump (AuthMiddlewareExample.adminDashboard
                                 (fun x => run 0 hs (bump x)) c2))).
    { apply (run_last 1 hs (bump c1) AuthMiddlewareExample.AdminMiddleware);
        [chain_auto | chain_auto | reflexivity | | index_auto].
      rewrite (AdminMiddleware_role _ (bump c1) "admin")
        by (apply lookup_insert_eq).
      exact E2. }
    rewrite (run_last 2 hs c0 AuthMiddlewareExample.AuthMiddleware
               (bump (bump (AuthMiddlewareExample.adminDashboard
                              (fun x => run 0 hs (bump x)) c2))));
      [| chain_auto | chain_auto | reflexivity | | index_auto].
    + split; reflexivity.
    + rewrite (AuthMiddleware_bearer _ c0 "valid-admin-token")
        by (rewrite Hh0; exact Hadmin).
      rewrite validateToken_cases. cbn [String.eqb Ascii.eqb Bool.eqb].
      exact E1.
  - intros Huser.
    set (c1 := Set_ "role" (AString "user")
                 (Set_ "username" (AString "tom")
                    (Set_ "user_id" (AInt 1)
                       (note_verify "valid-user-token" c0)))).
    set (d := AbortWithStatusJSON StatusForbidden
                (H [("code", JNum 403); ("message", JStr "需要管理员权限")])
                (bump c1)).
    assert (E1 : run 2 hs (bump c1) = bump d).
    { apply (run_last 1 hs (bump c1) AuthMiddlewareExample.AdminMiddleware);
        [chain_auto | chain_auto | reflexivity | | index_auto].
      rewrite (AdminMiddleware_role _ (bump c1) "user")
        by (apply lookup_insert_eq).
      reflexivity. }
    rewrite (run_last 2 hs c0 AuthMiddlewareExample.AuthMiddleware (bump d));
      [| chain_auto | chain_auto | reflexivity | | index_auto].
    + split; reflexivity.
    + rewrite (AuthMiddleware_bearer _ c0 "valid-user-token")
        by (rewrite Hh0; exact Huser).
      rewrite validateToken_cases. cbn [String.eqb Ascii.eqb Bool.eqb].
      exact E1.
  - intros Hna Hnu.
    destruct (strings.CutPrefix (GetHeader "Authorization" c) "Bearer ")
      as [token|] eqn:Ecut.
    + apply CutPrefix_Some in Ecut.
      assert (Hnone : AuthMiddlewareExample.validateToken token = None).
      { rewrite validateToken_cases.
        destruct (String.eqb_spec token "valid-admin-token") as [->|_];
          [contradiction|].
        destruct (String.eqb_spec token "valid-user-token") as [->|_];
          [contradiction|].
        reflexivity. }
      rewrite (run_last 2 hs c0 AuthMiddlewareExample.AuthMiddleware
                 (AbortWithStatusJSON StatusUnauthorized
                    (H [("code", JNum 401); ("message", JStr "无效的令牌")])
                    (note_verify token c0)));
        [| chain_auto | chain_auto | reflexivity | | index_auto].
      * split; [eexists|]; reflexivity.
      * rewrite (AuthMiddleware_bearer _ c0 token) by (rewrite Hh0; exact Ecut).
        rewrite Hnone. reflexivity.
    + destruct (AuthMiddleware_refuses (fun x => run 2 hs (bump x)) c0)
        as [msg Hmsg].
      { unfold strings.HasPrefix. rewrite Hh0, Ecut. reflexivity. }
      rewrite (run_last 2 hs c0 AuthMiddlewareExample.AuthMiddleware _
                 ltac:(chain_auto) ltac:(chain_auto) eq_refl Hmsg);
        [| index_auto].
      split; [exists msg|]; reflexivity.
Qed.

(** The theorem at a request that carries the token of the administrator. *)
Lemma admin_route_outcomes_witness :
  let c := authorized_request "Bearer valid-admin-token" in
  let r := handleHTTPRequest AuthMiddlewareExample.admin_route c in
  Writer r
  = (Writer c
     ++ [(StatusOK,
          H [("code", JNum 0); ("message", JStr "success");
             ("data", H [("dashboard", JStr "管理员仪表盘")])])])%list
  /\ IsAborted r = false.
Proof.
  apply (proj1 (admin_route_outcomes
                  (authorized_request "Bearer valid-admin-token"))).
  reflexivity.
Defined.

(** X4. Behind [JWTAuthMiddleware], [profileHandler] answers with the
    user id, name and role of the claims that [parseToken] returned for
    the token of the request, and with nothing else of them; when
    [parseToken] refuses the token the answer is the 401 of the
    middleware and the handler writes nothing. Either way the verifier
    was called once, on the text behind [Bearer]. *)
Theorem profile_route_outcomes secret now wire c token :
  GetHeader "Authorization" c = "Bearer " ++ token ->
  let r := handleHTTPRequest (GinAuth.profile_route secret now wire) c in
  match GinAuth.parseToken secret now (wire token) with
  | inl claims =>
      Writer r
      = (Writer c
         ++ [(StatusOK,
              H [("user_id", JNum (GinAuth.UserID claims));
                 ("username", JStr (GinAuth.Username claims));
                 ("role", JStr (GinAuth.Role claims));
                 ("message", JStr "个人信息获取成功")])])%list
      /\ IsAborted r = false
  | inr _ =>
      Writer r
      = (Writer c
         ++ [(StatusUnauthorized, H [("error", JStr "token 无效或已过期")])])%list
      /\ IsAborted r = true
  end
  /\ verified r = (verified c ++ [token])%list.
Proof.
  intros Hh r. subst r.
  set (hs := GinAuth.profile_route secret now wire).
  unfold handleHTTPRequest, Next. change (length hs) with 2%nat.
  set (c0 := bump (reset c)).
  assert (Hh0 : GetHeader "Authorization" c0 = "Bearer " ++ token) by exact Hh.
  pose proof (bearer_header_is_forwarded secret now wire
                (fun x => run 1 hs (bump x)) c0 token Hh0) as Hfw.
  destruct (GinAuth.parseToken secret now (wire token)) as [claims|err].
  - set (c1 := Set_ "role" (AString (GinAuth.Role claims))
                 (Set_ "username" (AString (GinAuth.Username claims))
                    (Set_ "userID" (AUint (GinAuth.UserID claims))
                       (note_verify token c0)))) in *.
    assert (E1 : run 1 hs (bump c1)
                 = bump (GinAuth.profileHandler (fun x => run 0 hs (bump x))
                           (bump c1))).
    { apply (run_last 0 hs (bump c1) GinAuth.profileHandler);
        [chain_auto | chain_auto | reflexivity | reflexivity | index_auto]. }
    rewrite (run_last 1 hs c0 (GinAuth.JWTAuthMiddleware secret now wire)
               (bump (GinAuth.profileHandler (fun x => run 0 hs (bump x))
                        (bump c1))));
      [| chain_auto | chain_auto | reflexivity
       | rewrite Hfw; exact E1 | index_auto].
    unfold GinAuth.profileHandler, Get.
    replace (Keys (bump c1) !! "userID")
      with (Some (AUint (GinAuth.UserID claims))).
    2:{ symmetry. cbn [Keys bump set_index c1 Set_].
        rewrite !lookup_insert_ne by discriminate. apply lookup_insert_eq. }
    replace (Keys (bump c1) !! "username")
      with (Some (AString (GinAuth.Username claims))).
    2:{ symmetry. cbn [Keys bump set_index c1 Set_].
        rewrite lookup_insert_ne by discriminate. apply lookup_insert_eq. }
    replace (Keys (bump c1) !! "role")
      with (Some (AString (GinAuth.Role claims))).
    2:{ symmetry. cbn [Keys bump set_index c1 Set_]. apply lookup_insert_eq. }
    repeat split.
  - rewrite (run_last 1 hs c0 (GinAuth.JWTAuthMiddleware secret now wire) _
               ltac:(chain_auto) ltac:(chain_auto) eq_refl Hfw);
      [| index_auto].
    repeat split.
Qed.

(** The theorem for the token of [tom], one minute after it was issued. *)
Lemma profile_route_outcomes_witness :
  let c := authorized_request "Bearer tom-token" in
  let r := handleHTTPRequest
             (GinAuth.profile_route GinAuth.jwtSecret jwt.minute
                (wire_one "tom-token" tom_token)) c in
  match GinAuth.parseToken GinAuth.jwtSecret jwt.minute
          (wire_one "tom-token" tom_token "tom-token") with
  | inl claims =>
      Writer r
      = (Writer c
         ++ [(StatusOK,
              H [("user_id", JNum (GinAuth.UserID claims));
                 ("username", JStr (GinAuth.Username claims));
                 ("role", JStr (GinAuth.Role claims));
                 ("message", JStr "个人信息获取成功")])])%list
      /\ IsAborted r = false
  | inr _ =>
      Writer r
      = (Writer c
         ++ [(StatusUnauthorized, H [("error", JStr "token 无效或已过期")])])%list
      /\ IsAborted r = true
  end
  /\ verified r = (verified c ++ ["tom-token"])%list.
Proof.
  apply (profile_route_outcomes GinAuth.jwtSecret jwt.minute
           (wire_one "tom-token" tom_token)
           (authorized_request "Bearer tom-token") "tom-token").
  reflexivity.
Defined.

Example profile_of_tom :
  Writer (handleHTTPRequest
            (GinAuth.profile_route GinAuth.jwtSecret jwt.minute
               (wire_one "tom-token" tom_token))
            (authorized_request "Bearer tom-token"))
  = [(StatusOK,
      H [("user_id", JNum 7); ("username", JStr "tom"); ("role", JStr "user");
         ("message", JStr "个人信息获取成功")])].
Proof. vm_compute. reflexivity. Qed.

Lemma has_permission_In permissions required :
  ProtectedRoutes.has_permission permissions required = true
  <-> In required permissions.
Proof.
  induction permissions as [|p rest IH]; cbn [ProtectedRoutes.has_permission In].
  - split; [discriminate | tauto].
  - destruct (String.eqb_spec p required) as [->|Hne].
    + split; auto.
    + rewrite IH. split; [auto | intros [E|Hin]; [contradiction | exact Hin]].
Qed.

Lemma permission_gate_cases (required : string)
      (Next : Context -> Context) (c : Context) :
  (In required (GetStringSlice "permissions" c)
   /\ ProtectedRoutes.RequirePermission required Next c = Next c)
  \/ (~ In required (GetStringSlice "permissions" c)
      /\ ProtectedRoutes.RequirePermission required Next c
         = Abort (JSON StatusForbidden
                    (H [("error", JStr "权限不足"); ("required", JStr required)])
                    c)).
Proof.
  unfold ProtectedRoutes.RequirePermission.
  destruct (ProtectedRoutes.has_permission (GetStringSlice "permissions" c)
              required) eqn:E.
  - left. split; [apply has_permission_In; exact E | reflexivity].
  - right. split; [|reflexivity].
    intros Hin. apply has_permission_In in Hin. congruence.
Qed.

(** X5. [RequirePermission] hands the request on exactly when the required
    permission is, as a whole string, one of the permissions stored for
    the caller. Otherwise it answers 403, naming the permission that is
    missing, and aborts, and the loop that called it starts no later
    handler. *)
Theorem permission_gate_membership (required : string)
        (Next : Context -> Context) (c : Context) :
  (In required (GetStringSlice "permissions" c) ->
   ProtectedRoutes.RequirePermission required Next c = Next c)
  /\ (~ In required (GetStringSlice "permissions" c) ->
      ProtectedRoutes.RequirePermission required Next c
      = Abort (JSON StatusForbidden
                 (H [("error", JStr "权限不足"); ("required", JStr required)]) c)
      /\ forall fuel hs, (length hs < 63)%nat ->
           run fuel hs (bump (ProtectedRoutes.RequirePermission required Next c))
           = bump (ProtectedRoutes.RequirePermission required Next c)).
Proof.
  unfold ProtectedRoutes.RequirePermission.
  destruct (ProtectedRoutes.has_permission (GetStringSlice "permissions" c)
              required) eqn:E.
  - apply has_permission_In in E. split; [reflexivity | contradiction].
  - split.
    + intros Hin. apply has_permission_In in Hin. congruence.
    + intros _. split; [reflexivity|].
      intros fuel hs Hlen. apply aborted_stops; [exact Hlen | reflexivity].
Qed.

(** The theorem for a caller who may create and update products. *)
Lemma permission_gate_membership_witness :
  let c := Set_ "permissions" (AStrings ["product:create"; "product:update"])
             plain_request in
  ProtectedRoutes.RequirePermission "product:update" (Println "handler") c
  = Println "handler" c.
Proof.
  apply (proj1 (permission_gate_membership "product:update" (Println "handler")
                  (Set_ "permissions"
                     (AStrings ["product:create"; "product:update"])
                     plain_request))).
  vm_compute. right. left. reflexivity.
Defined.

(** A permission with a wildcard grants nothing but itself. *)
Example wildcard_is_no_pattern :
  Writer (ProtectedRoutes.RequirePermission "product:create" (Println "handler")
            (Set_ "permissions" (AStrings ["product:*"]) plain_request))
  = [(StatusForbidden,
      H [("error", JStr "权限不足"); ("required", JStr "product:create")])].
Proof. vm_compute. reflexivity. Qed.

Lemma AuthRequired_bearer secret now wire (Next : Context -> Context) c token :
  GetHeader "Authorization" c = "Bearer " ++ token ->
  ProtectedRoutes.AuthRequired secret now wire Next c
  = match ProtectedRoutes.parseToken secret now (wire token) with
    | inr _ =>
        Abort (JSON StatusUnauthorized (H [("error", JStr "token 无效")])
                 (note_verify token c))
    | inl claims =>
        Next (Set_ "permissions" (AStrings (ProtectedRoutes.Permissions claims))
                (Set_ "roles" (AStrings (ProtectedRoutes.Roles claims))
                   (Set_ "username" (AString (ProtectedRoutes.Username claims))
                      (Set_ "userID" (AUint (ProtectedRoutes.UserID claims))
                         (note_verify token c)))))
    end.
Proof.
  intros Hh. unfold ProtectedRoutes.AuthRequired. rewrite Hh.
  rewrite bearer_parts.
  replace (String.eqb ("Bearer " ++ token) "") with false by reflexivity.
  cbn [length Nat.eqb negb orb nth]. cbn [String.eqb Ascii.eqb Bool.eqb negb].
  reflexivity.
Qed.

(** X6. On [POST /products] authentication comes before authorization. A
    token that [parseToken] refuses is answered 401, whatever it claims;
    a verified token whose permissions lack [product:create] is answered
    403; a verified token with that permission reaches the handler, which
    answers 201. *)
Theorem create_product_outcomes secret now wire c token :
  GetHeader "Authorization" c = "Bearer " ++ token ->
  let r := handleHTTPRequest
             (ProtectedRoutes.create_product_route secret now wire) c in
  match ProtectedRoutes.parseToken secret now (wire token) with
  | inr _ =>
      Writer r
      = (Writer c
         ++ [(StatusUnauthorized, H [("error", JStr "token 无效")])])%list
  | inl claims =>
      (In "product:create" (ProtectedRoutes.Permissions claims) ->
       Writer r
       = (Writer c
          ++ [(StatusCreated, H [("message", JStr "产品创建成功")])])%list)
      /\ (~ In "product:create" (ProtectedRoutes.Permissions claims) ->
          Writer r
          = (Writer c
             ++ [(StatusForbidden,
                  H [("error", JStr "权限不足");
                     ("required", JStr "product:create")])])%list)
  end.
Proof.
  intros Hh r. subst r.
  set (hs := ProtectedRoutes.create_product_route secret now wire).
  unfold handleHTTPRequest, Next. change (length hs) with 3%nat.
  set (c0 := bump (reset c)).
  assert (Hh0 : GetHeader "Authorization" c0 = "Bearer " ++ token) by exact Hh.
  pose proof (AuthRequired_bearer secret now wire
                (fun x => run 2 hs (bump x)) c0 token Hh0) as Hfw.
  destruct (ProtectedRoutes.parseToken secret now (wire token)) as [claims|err].
  - set (c1 := Set_ "permissions" (AStrings (ProtectedRoutes.Permissions claims))
                 (Set_ "roles" (AStrings (ProtectedRoutes.Roles claims))
                    (Set_ "username" (AString (ProtectedRoutes.Username claims))
                       (Set_ "userID" (AUint (ProtectedRoutes.UserID claims))
                          (note_verify token c0))))) in *.
    assert (Hperm : GetStringSlice "permissions" (bump c1)
                    = ProtectedRoutes.Permissions claims).
    { unfold GetStringSlice, Get. cbn [Keys bump set_index c1 Set_].
      rewrite lookup_insert_eq. reflexivity. }
    destruct (permission_gate_cases "product:create"
                (fun x => run 1 hs (bump x)) (bump c1)) as [[Hin Hgo]|[Hout Hno]].
    + rewrite Hperm in Hin. split; [|contradiction]. intros _.
      set (c2 := bump (bump c1)).
      assert (E2 : run 1 hs c2
                   = bump (ProtectedRoutes.createProductHandler
                             (fun x => run 0 hs (bump x)) c2)).
      { apply (run_last 0 hs c2 ProtectedRoutes.createProductHandler);
          [chain_auto | chain_auto | reflexivity | reflexivity | index_auto]. }
      assert (E1 : run 2 hs (bump c1)
                   = bump (bump (ProtectedRoutes.createProductHandler
                                   (fun x => run 0 hs (bump x)) c2))).
      { apply (run_last 1 hs (bump c1)
                 (ProtectedRoutes.RequirePermission "product:create"));
          [chain_auto | chain_auto | reflexivity | rewrite Hgo; exact E2
           | index_auto]. }
      rewrite (run_last 2 hs c0 (ProtectedRoutes.AuthRequired secret now wire)
                 (bump (bump (ProtectedRoutes.createProductHandler
                                (fun x => run 0 hs (bump x)) c2))));
        [| chain_auto | chain_auto | reflexivity
         | rewrite Hfw; exact E1 | index_auto].
      reflexivity.
    + rewrite Hperm in Hout. split; [contradiction|]. intros _.
      assert (E1 : run 2 hs (bump c1)
                   = bump (Abort (JSON StatusForbidden
                                    (H [("error", JStr "权限不足");
                                        ("required", JStr "product:create")])
                                    (bump c1)))).
      { apply (run_last 1 hs (bump c1)
                 (ProtectedRoutes.RequirePermission "product:create"));
          [chain_auto | chain_auto | reflexivity | exact Hno | index_auto]. }
      rewrite (run_last 2 hs c0 (ProtectedRoutes.AuthRequired secret now wire)
                 (bump (Abort (JSON StatusForbidden
                                 (H [("error", JStr "权限不足");
                                     ("required", JStr "product:create")])
                                 (bump c1)))));
        [| chain_auto | chain_auto | reflexivity
         | rewrite Hfw; exact E1 | index_auto].
      reflexivity.
  - rewrite (run_last 2 hs c0 (ProtectedRoutes.AuthRequired secret now wire) _
               ltac:(chain_auto) ltac:(chain_auto) eq_refl Hfw);
      [| index_auto].
    reflexivity.
Qed.

(** The theorem for a token of [admin] with the permission
    [product:create], one minute after it was issued. *)
Lemma create_product_outcomes_witness :
  let wire := wire_one "admin-token"
                (hmac_token jwt.SHA256 "k" protected_claims) in
  let c := authorized_request "Bearer admin-token" in
  let r := handleHTTPRequest
             (ProtectedRoutes.create_product_route "k" jwt.minute wire) c in
  match ProtectedRoutes.parseToken "k" jwt.minute (wire "admin-token") with
  | inr _ =>
      Writer r
      = (Writer c
         ++ [(StatusUnauthorized, H [("error", JStr "token 无效")])])%list
  | inl claims =>
      (In "product:create" (ProtectedRoutes.Permissions claims) ->
       Writer r
       = (Writer c
          ++ [(StatusCreated, H [("message", JStr "产品创建成功")])])%list)
      /\ (~ In "product:create" (ProtectedRoutes.Permissions claims) ->
          Writer r
          = (Writer c
             ++ [(StatusForbidden,
                  H [("error", JStr "权限不足");
                     ("required", JStr "product:create")])])%list)
  end.
Proof.
  apply (create_product_outcomes "k" jwt.minute
           (wire_one "admin-token" (hmac_token jwt.SHA256 "k" protected_claims))
           (authorized_request "Bearer admin-token") "admin-token").
  reflexivity.
Defined.

End Routes.

(** ** More on tokens *)

Section TokensMore.
Import Samples.


(** What [ParseWithClaims] answers for a token that carries the HMAC of
    its content under the key of the key function: the verdict of the
    validator on its claims. *)
Lemma ParseWithClaims_signed {C : Type} `{jwt.Claims C} h secret now
      (claims : C) (keyFunc : jwt.Keyfunc C) :
  (forall token, jwt.Method token = jwt.SigningMethodHMAC h ->
                 keyFunc token = inl secret) ->
  jwt.ParseWithClaims now (hmac_token h secret claims) keyFunc
  = match jwt.Validate now claims with
    | Some e => inr (jwt.ErrTokenInvalidClaims :: e)
    | None =>
        inl {| jwt.Raw := hmac_token h secret claims;
               jwt.Method := jwt.SigningMethodHMAC h;
               jwt.TokenHeader := hmac_header h;
               jwt.TokenClaims := claims;
               jwt.TokenSignature :=
                 Some (jwt.HMACsum h secret (hmac_header h) claims);
               jwt.Valid := true |}
    end.
Proof.
  intros Hkey.
  unfold jwt.ParseWithClaims, hmac_token, jwt.ParseUnverified.
  cbn [jwt.alg hmac_header]. rewrite GetSigningMethod_hmac.
  rewrite Hkey by reflexivity.
  cbn [jwt.Method jwt.TokenHeader jwt.TokenClaims jwt.Verify].
  rewrite bool_decide_eq_true_2 by reflexivity.
  reflexivity.
Qed.


(** A token signed under another key, and one whose role was changed
    after signing, are refused for their signature. *)
Example forged_tokens_refused :
  GinAuth.parseToken GinAuth.jwtSecret 0
    (hmac_token jwt.SHA256 "another-key" admin_claims)
  = inr [jwt.ErrTokenSignatureInvalid; jwt.ErrSignatureInvalid]
  /\ GinAuth.parseToken GinAuth.jwtSecret 0
       (jwt.Compact (hmac_header jwt.SHA256) admin_claims
          (Some (jwt.HMACsum jwt.SHA256 GinAuth.jwtSecret
                   (hmac_header jwt.SHA256)
                   (GinAuth.newClaims (fun _ => 0) 1 "admin" "user"
                      (2 * jwt.hour)))))
     = inr [jwt.ErrTokenSignatureInvalid; jwt.ErrSignatureInvalid].
Proof. vm_compute. split; reflexivity. Qed.

(** X8. A token of [GenerateExpiredToken] is refused by [ParseToken] as
    expired, although its signature is valid: at the clock that issued it
    and at every clock from one hour before that on. *)
Theorem expired_token_refused secret (clock : nat -> Z) now userID username :
  clock 0%nat - jwt.hour <= now ->
  exists token,
    JwtBasics.GenerateExpiredToken secret clock userID username = inl token
    /\ JwtBasics.ParseToken secret now token
       = inr [jwt.ErrTokenInvalidClaims; jwt.ErrTokenExpired].
Proof.
  intros Hnow.
  exists (hmac_token jwt.SHA256 secret
            (JwtBasics.expiredClaims clock userID username)).
  split; [reflexivity|].
  unfold JwtBasics.ParseToken.
  rewrite (ParseWithClaims_signed jwt.SHA256 secret now).
  2:{ intros token Hm. unfold JwtBasics.keyFunc. rewrite Hm. reflexivity. }
  unfold jwt.Validate, jwt.verifyExpiresAt, jwt.verifyNotBefore.
  cbn [jwt.registered JwtBasics.Claims_jwt JwtBasics.Registered
       JwtBasics.expiredClaims jwt.ExpiresAt jwt.NotBefore jwt.NewNumericDate].
  pose proof (Truncate_le (clock 0%nat + -1 * jwt.hour) jwt.TimePrecision
                eq_refl) as Hle.
  assert (E : (now <? jwt.Truncate (clock 0%nat + -1 * jwt.hour)
                        jwt.TimePrecision) = false).
  { apply Z.ltb_ge. lia. }
  rewrite E. reflexivity.
Qed.

(** The theorem at the clock of issue. *)
Lemma expired_token_refused_witness :
  exists token,
    JwtBasics.GenerateExpiredToken JwtBasics.jwtSecret (fun _ => some_instant)
      1 "tom" = inl token
    /\ JwtBasics.ParseToken JwtBasics.jwtSecret some_instant token
       = inr [jwt.ErrTokenInvalidClaims; jwt.ErrTokenExpired].
Proof.
  apply (expired_token_refused JwtBasics.jwtSecret (fun _ => some_instant)
           some_instant 1 "tom").
  vm_compute. discriminate.
Defined.

Lemma Truncate_mono t t' d : 0 < d -> t <= t' -> jwt.Truncate t d <= jwt.Truncate t' d.
Proof.
  intros Hd Hle. unfold jwt.Truncate.
  pose proof (Z.div_mod t d) as Ht. pose proof (Z.div_mod t' d) as Ht'.
  assert (E : t - t mod d = d * (t / d)) by lia.
  assert (E' : t' - t' mod d = d * (t' / d)) by lia.
  rewrite E, E'.
  pose proof (Z.div_le_mono t t' d Hd Hle). nia.
Qed.

(** X9. A token of [GenerateToken] carries a not-before instant, the
    second in which it was issued: [ParseToken] refuses it as not yet
    valid at every clock before that second, so a verifier whose clock is
    behind the issuer's by a second or more refuses a fresh token. *)
Theorem fresh_token_not_yet_valid secret t now userID username role :
  now < jwt.Truncate t jwt.second ->
  exists token,
    JwtBasics.GenerateToken secret (fun _ => t) userID username role = inl token
    /\ JwtBasics.ParseToken secret now token
       = inr [jwt.ErrTokenInvalidClaims; jwt.ErrTokenNotValidYet].
Proof.
  intros Hnow.
  exists (hmac_token jwt.SHA256 secret
            (JwtBasics.newClaims (fun _ => t) userID username role)).
  split; [reflexivity|].
  unfold JwtBasics.ParseToken.
  rewrite (ParseWithClaims_signed jwt.SHA256 secret now).
  2:{ intros token Hm. unfold JwtBasics.keyFunc. rewrite Hm. reflexivity. }
  unfold jwt.Validate, jwt.verifyExpiresAt, jwt.verifyNotBefore.
  cbn [jwt.registered JwtBasics.Claims_jwt JwtBasics.Registered
       JwtBasics.newClaims jwt.ExpiresAt jwt.NotBefore jwt.NewNumericDate].
  pose proof (Truncate_mono t (t + 2 * jwt.hour) jwt.TimePrecision eq_refl
                ltac:(unfold jwt.hour, jwt.minute, jwt.second; lia)) as Hm.
  assert (E1 : (now <? jwt.Truncate (t + 2 * jwt.hour) jwt.TimePrecision) = true).
  { apply Z.ltb_lt. unfold jwt.TimePrecision in *. lia. }
  assert (E2 : (now <? jwt.Truncate t jwt.TimePrecision) = true).
  { apply Z.ltb_lt. exact Hnow. }
  rewrite E1, E2. reflexivity.
Qed.

(** The theorem for a verifier one second behind the issuer. *)
Lemma fresh_token_not_yet_valid_witness :
  exists token,
    JwtBasics.GenerateToken JwtBasics.jwtSecret (fun _ => some_instant) 1
      "tom" "admin" = inl token
    /\ JwtBasics.ParseToken JwtBasics.jwtSecret (some_instant - jwt.second) token
       = inr [jwt.ErrTokenInvalidClaims; jwt.ErrTokenNotValidYet].
Proof.
  apply (fresh_token_not_yet_valid JwtBasics.jwtSecret some_instant
           (some_instant - jwt.second) 1 "tom" "admin").
  vm_compute. reflexivity.
Defined.

End TokensMore.

(** ** Registration and the user table *)

Section Registration.
Import gin RegisterLogin Samples.

Lemma MatchString_In class s :
  MatchString class s = true
  <-> exists a, In a (list_ascii_of_string s) /\ class a = true.
Proof. unfold MatchString. apply existsb_exists. Qed.

Lemma between_spec lo hi a :
  between lo hi a = true
  <-> (nat_of_ascii lo <= nat_of_ascii a <= nat_of_ascii hi)%nat.
Proof.
  unfold between. rewrite andb_true_iff, !Nat.leb_le. reflexivity.
Qed.

(** X10. [ValidatePassword] accepts a password exactly when it has from 8
    to 72 bytes and contains an upper-case letter, a lower-case letter, a
    digit and one of the twenty special characters of its class. *)
Theorem ValidatePassword_accepts password :
  ValidatePassword password = None
  <-> (8 <= String.length password <= 72)%nat
      /\ (exists a, In a (list_ascii_of_string password)
                    /\ (65 <= nat_of_ascii a <= 90)%nat)
      /\ (exists a, In a (list_ascii_of_string password)
                    /\ (97 <= nat_of_ascii a <= 122)%nat)
      /\ (exists a, In a (list_ascii_of_string password)
                    /\ (48 <= nat_of_ascii a <= 57)%nat)
      /\ (exists a, In a (list_ascii_of_string password)
                    /\ In a specialChars).
Proof.
  assert (Hsp : forall a, isSpecial a = true <-> In a specialChars).
  { intros a. unfold isSpecial. rewrite existsb_exists. split.
    - intros (b & Hb & E). apply Ascii.eqb_eq in E. subst b. exact Hb.
    - intros Hin. exists a. split; [exact Hin | apply Ascii.eqb_refl]. }
  unfold ValidatePassword.
  destruct (Nat.ltb_spec (String.length password) 8) as [Hs|Hs].
  { split; [discriminate | intros [[? ?] _]; lia]. }
  destruct (Nat.ltb_spec 72 (String.length password)) as [Hl|Hl].
  { split; [discriminate | intros [[? ?] _]; lia]. }
  cbv zeta.
  destruct (MatchString (between "A" "Z") password) eqn:Eu; cbn [negb].
  2:{ split; [discriminate|]. intros (_ & (a & Ha & Hr) & _).
      assert (MatchString (between "A" "Z") password = true).
      { apply MatchString_In. exists a. split; [exact Ha|].
        apply between_spec. exact Hr. }
      congruence. }
  destruct (MatchString (between "a" "z") password) eqn:El; cbn [negb].
  2:{ split; [discriminate|]. intros (_ & _ & (a & Ha & Hr) & _).
      assert (MatchString (between "a" "z") password = true).
      { apply MatchString_In. exists a. split; [exact Ha|].
        apply between_spec. exact Hr. }
      congruence. }
  destruct (MatchString (between "0" "9") password) eqn:En; cbn [negb].
  2:{ split; [discriminate|]. intros (_ & _ & _ & (a & Ha & Hr) & _).
      assert (MatchString (between "0" "9") password = true).
      { apply MatchString_In. exists a. split; [exact Ha|].
        apply between_spec. exact Hr. }
      congruence. }
  destruct (MatchString isSpecial password) eqn:Es; cbn [negb].
  2:{ split; [discriminate|]. intros (_ & _ & _ & _ & (a & Ha & Hr)).
      assert (MatchString isSpecial password = true).
      { apply MatchString_In. exists a. split; [exact Ha|].
        apply Hsp. exact Hr. }
      congruence. }
  split; [intros _ | reflexivity].
  apply MatchString_In in Eu as (a1 & H1 & R1).
  apply MatchString_In in El as (a2 & H2 & R2).
  apply MatchString_In in En as (a3 & H3 & R3).
  apply MatchString_In in Es as (a4 & H4 & R4).
  apply between_spec in R1, R2, R3. apply Hsp in R4.
  split; [lia|].
  split; [exists a1; split; assumption|].
  split; [exists a2; split; assumption|].
  split; [exists a3; split; assumption|].
  exists a4; split; assumption.
Qed.

Example password_of_the_readme :
  ValidatePassword "Test@123456" = None
  /\ ValidatePassword "test@123456" = Some "密码需包含大写字母"
  /\ ValidatePassword "Test1234567" = Some "密码需包含特殊字符"
  /\ ValidatePassword "T@1a" = Some "密码至少8位".
Proof. vm_compute. repeat split. Qed.

Lemma validated_length password :
  ValidatePassword password = None ->
  (8 <= String.length password <= 72)%nat.
Proof.
  unfold ValidatePassword.
  destruct (Nat.ltb_spec (String.length password) 8); [discriminate|].
  destruct (Nat.ltb_spec 72 (String.length password)); [discriminate|].
  intros _. lia.
Qed.

Lemma validated_hashes salt password :
  ValidatePassword password = None ->
  HashPassword (Some salt) password
  = inl (bcrypt.Hashed bcrypt.DefaultCost salt password).
Proof.
  intros Hv. apply validated_length in Hv.
  unfold HashPassword, bcrypt.GenerateFromPassword.
  assert (E : (72 <? String.length password)%nat = false)
    by (apply Nat.ltb_ge; lia).
  rewrite E. reflexivity.
Qed.

(** Every run of [registerHandler] either leaves the world as it was and
    answers something other than 201, or answers 201 for a bound request
    with a valid password and a free name and stores the new user. *)
Lemma register_inversion tags_ok rand now body w :
  (snd (registerHandler tags_ok rand now body w) = w
   /\ fst (fst (registerHandler tags_ok rand now body w)) <> StatusCreated)
  \/ (exists req salt,
         body = Some req /\ rand = Some salt
         /\ reg_Username req <> ""
         /\ ValidatePassword (reg_Password req) = None
         /\ users w !! reg_Username req = None
         /\ registerHandler tags_ok rand now body w
            = ((StatusCreated,
                H [("message", JStr "注册成功"); ("user_id", JNum (nextID w))]),
               registered now req salt w)).
Proof.
  unfold registerHandler, ShouldBindRegister.
  destruct body as [req|]; [|left; split; [reflexivity | discriminate]].
  destruct (String.eqb_spec (reg_Username req) "") as [Eu|Eu];
    [left; split; [reflexivity | discriminate]|].
  cbn [orb].
  destruct (String.eqb (reg_Password req) "" || String.eqb (reg_Email req) ""
            || negb (tags_ok req))%bool;
    [left; split; [reflexivity | discriminate]|].
  destruct (ValidatePassword (reg_Password req)) as [msg|] eqn:Ev;
    [left; split; [reflexivity | discriminate]|].
  destruct (users w !! reg_Username req) as [u0|] eqn:Ex;
    [left; split; [reflexivity | discriminate]|].
  destruct rand as [salt|].
  - right. exists req, salt. rewrite (validated_hashes salt _ Ev).
    repeat split; assumption.
  - left. unfold HashPassword, bcrypt.GenerateFromPassword.
    apply validated_length in Ev.
    assert (E : (72 <? String.length (reg_Password req))%nat = false)
      by (apply Nat.ltb_ge; lia).
    rewrite E. split; [reflexivity | discriminate].
Qed.



(** X12. [registerHandler] changes the world only when it answers 201:
    after every other answer (400, 409, 500) the user table, the next id
    and the failure counters are what they were. In particular a name
    that is taken keeps its user. *)
Theorem register_failure_keeps_world tags_ok rand now body w :
  let r := registerHandler tags_ok rand now body w in
  (fst (fst r) <> StatusCreated -> snd r = w)
  /\ (forall req user,
         body = Some req -> users w !! reg_Username req = Some user ->
         snd r = w /\ fst (fst r) <> StatusCreated).
Proof.
  intros r. subst r.
  destruct (register_inversion tags_ok rand now body w)
    as [[Hw Hs]|(req & salt & -> & -> & Hu & Hv & Hfree & Hr)].
  - split; [intros _; exact Hw|]. intros req user _ _. split; assumption.
  - rewrite Hr. cbn [fst snd]. split; [intros Hne; contradiction|].
    intros req' user [= <-] Htaken. congruence.
Qed.


(** What a login leaves alone: the users, the next id, and the counter of
    every name other than the one in the request. *)
Lemma login_frame_lemma body w other :
  (forall req, body = Some req -> req_Username req <> other) ->
  users (snd (loginHandler body w)) = users w
  /\ nextID (snd (loginHandler body w)) = nextID w
  /\ loginAttempts (snd (loginHandler body w)) !! other
     = loginAttempts w !! other.
Proof.
  intros Hother. unfold loginHandler, ShouldBindJSON.
  destruct body as [req|]; [|repeat split].
  specialize (Hother req eq_refl).
  destruct (String.eqb (req_Username req) "" || String.eqb (req_Password req) "");
    [repeat split|].
  destruct (isLocked (req_Username req) w); [repeat split|].
  destruct (users w !! req_Username req) as [user|].
  - unfold CheckPassword.
    destruct (bcrypt.CompareHashAndPassword (PasswordHash user)
                (req_Password req)); cbn [negb fst snd].
    + repeat split. unfold recordFailedLogin, set_attempts.
      cbn [loginAttempts]. apply lookup_insert_ne. exact Hother.
    + repeat split. unfold clearFailedLogins, set_attempts.
      cbn [loginAttempts]. apply lookup_delete_ne. exact Hother.
  - cbn [snd]. repeat split. unfold recordFailedLogin, set_attempts.
    cbn [loginAttempts]. apply lookup_insert_ne. exact Hother.
Qed.

(** X13. A login request changes neither the user table nor the next id,
    and of the failure counters it changes at most the one of the name it
    carries: attempts on one account never count against another. *)
Theorem login_frame body w other :
  (forall req, body = Some req -> req_Username req <> other) ->
  users (snd (loginHandler body w)) = users w
  /\ nextID (snd (loginHandler body w)) = nextID w
  /\ loginAttempts (snd (loginHandler body w)) !! other
     = loginAttempts w !! other
  /\ isLocked other (snd (loginHandler body w)) = isLocked other w.
Proof.
  intros Hother.
  destruct (login_frame_lemma body w other Hother) as (Hu & Hn & Hc).
  repeat split; try assumption. unfold isLocked. rewrite Hc. reflexivity.
Qed.

(** The theorem for wrong passwords for [tom] and the counter of [ann]. *)
Lemma login_frame_witness :
  let w' := snd (loginHandler (request "tom" "wrong-password") (tom_world 4)) in
  users w' = users (tom_world 4)
  /\ nextID w' = nextID (tom_world 4)
  /\ loginAttempts w' !! "ann" = loginAttempts (tom_world 4) !! "ann"
  /\ isLocked "ann" w' = isLocked "ann" (tom_world 4).
Proof.
  apply (login_frame (request "tom" "wrong-password") (tom_world 4) "ann").
  intros req [= <-]. discriminate.
Defined.




Example registered_while_locked :
  let w := attempts "ghost" ["a"; "b"; "c"; "d"; "e"] empty_world in
  let r := registerHandler (fun _ => true) (Some "salt") 0
             (Some {| reg_Username := "ghost";
                      reg_Password := "Test@123456";
                      reg_Email := "ghost@example.com" |}) w in
  fst (fst r) = StatusCreated
  /\ fst (fst (loginHandler (request "ghost" "Test@123456") (snd r)))
     = StatusTooManyRequests.
Proof. vm_compute. split; reflexivity. Qed.

(** X15. A login with the password of a registered name that is not
    locked is answered 200 with the id, name and address of the user, and
    removes the failure counter of the name, so that earlier failures no
    longer count towards a lockout. *)
Theorem successful_login_resets w username password user :
  username <> "" -> password <> "" ->
  isLocked username w = false ->
  users w !! username = Some user ->
  bcrypt.CompareHashAndPassword (PasswordHash user) password = None ->
  let r := loginHandler (request username password) w in
  fst r = (StatusOK,
           H [("message", JStr msgSuccess);
              ("user", H [("id", JNum (ID user));
                          ("username", JStr (Username user));
                          ("email", JStr (Email user))])])
  /\ loginAttempts (snd r) !! username = None
  /\ isLocked username (snd r) = false
  /\ checked (snd r) = (checked w ++ [(password, PasswordHash user)])%list.
Proof.
  intros Hu Hp Hl Hsome Hok r. subst r.
  unfold loginHandler. rewrite (bind_ok _ _ Hu Hp).
  cbn [req_Username req_Password]. rewrite Hl, Hsome.
  unfold CheckPassword. rewrite Hok. cbn [negb fst snd].
  unfold clearFailedLogins, set_attempts, isLocked. cbn [loginAttempts checked].
  rewrite lookup_delete_eq. repeat split.
Qed.

(** The theorem for [tom] after four failures. *)
Lemma successful_login_resets_witness :
  let r := loginHandler (request "tom" "Secr3t!123") (tom_world 4) in
  fst r = (StatusOK,
           H [("message", JStr msgSuccess);
              ("user", H [("id", JNum (ID tom));
                          ("username", JStr (Username tom));
                          ("email", JStr (Email tom))])])
  /\ loginAttempts (snd r) !! "tom" = None
  /\ isLocked "tom" (snd r) = false
  /\ checked (snd r)
     = (checked (tom_world 4) ++ [("Secr3t!123", PasswordHash tom)])%list.
Proof.
  apply (successful_login_resets (tom_world 4) "tom" "Secr3t!123" tom).
  - discriminate.
  - discriminate.
  - reflexivity.
  - reflexivity.
  - reflexivity.
Defined.


Lemma login_keeps_table body w :
  users (snd (loginHandler body w)) = users w
  /\ nextID (snd (loginHandler body w)) = nextID w.
Proof.
  unfold loginHandler, ShouldBindJSON.
  destruct body as [req|]; [|split; reflexivity].
  destruct (String.eqb (req_Username req) "" || String.eqb (req_Password req) "");
    [split; reflexivity|].
  destruct (isLocked (req_Username req) w); [split; reflexivity|].
  destruct (users w !! req_Username req) as [user|]; [|split; reflexivity].
  unfold CheckPassword.
  destruct (bcrypt.CompareHashAndPassword (PasswordHash user)
              (req_Password req)); split; reflexivity.
Qed.

Lemma uint64_small z : 0 <= z < 2 ^ 64 -> uint64 z = z.
Proof. intros Hz. unfold uint64. apply Z.mod_small. exact Hz. Qed.

Lemma registered_keeps_table now req salt w :
  table_ok w ->
  nextID w + 1 < 2 ^ 64 ->
  ValidatePassword (reg_Password req) = None ->
  users w !! reg_Username req = None ->
  table_ok (registered now req salt w).
Proof.
  intros (Hpos & Hrows & Hinj) Hbound Hv Hfree.
  assert (Hnext : nextID (registered now req salt w) = nextID w + 1).
  { unfold registered. cbn [nextID]. apply uint64_small. lia. }
  split; [rewrite Hnext; lia|]. split.
  - intros name user Hget. rewrite Hnext.
    unfold registered in Hget. cbn [users] in Hget.
    destruct (decide (reg_Username req = name)) as [<-|Hne].
    + rewrite lookup_insert_eq in Hget. injection Hget as <-.
      cbn [Username ID PasswordHash].
      split; [reflexivity|]. split; [lia|].
      exists salt, (reg_Password req). split; [reflexivity | exact Hv].
    + rewrite lookup_insert_ne in Hget by exact Hne.
      destruct (Hrows name user Hget) as (Hn & Hid & Hh).
      split; [exact Hn|]. split; [lia | exact Hh].
  - intros n1 n2 u1 u2 H1 H2 Hid.
    unfold registered in H1, H2. cbn [users] in H1, H2.
    destruct (decide (reg_Username req = n1)) as [E1|N1];
      destruct (decide (reg_Username req = n2)) as [E2|N2].
    + congruence.
    + subst n1. rewrite lookup_insert_eq in H1. injection H1 as <-.
      rewrite lookup_insert_ne in H2 by exact N2.
      destruct (Hrows n2 u2 H2) as (_ & Hlt & _). cbn [ID] in Hid. lia.
    + subst n2. rewrite lookup_insert_eq in H2. injection H2 as <-.
      rewrite lookup_insert_ne in H1 by exact N1.
      destruct (Hrows n1 u1 H1) as (_ & Hlt & _). cbn [ID] in Hid. lia.
    + rewrite lookup_insert_ne in H1 by exact N1.
      rewrite lookup_insert_ne in H2 by exact N2.
      exact (Hinj n1 n2 u1 u2 H1 H2 Hid).
Qed.

Lemma serve_keeps_table tags_ok r w :
  table_ok w ->
  nextID w + 1 < 2 ^ 64 ->
  table_ok (snd (serve tags_ok r w))
  /\ nextID (snd (serve tags_ok r w)) <= nextID w + 1.
Proof.
  intros Hok Hbound. destruct r as [body|rand now body]; cbn [serve].
  - destruct (login_keeps_table body w) as [Hu Hn].
    destruct Hok as (Hpos & Hrows & Hinj).
    split; [|rewrite Hn; lia].
    unfold table_ok. rewrite Hu, Hn.
    split; [exact Hpos | split; [exact Hrows | exact Hinj]].
  - destruct (register_inversion tags_ok rand now body w)
      as [[Hw _]|(req & salt & _ & _ & _ & Hv & Hfree & Hr)].
    + rewrite Hw. split; [exact Hok | lia].
    + rewrite Hr. cbn [snd]. split.
      * apply registered_keeps_table; assumption.
      * unfold registered. cbn [nextID]. destruct Hok as (Hpos & _).
        rewrite uint64_small by lia. lia.
Qed.

(** X16. The user table keeps its shape through every series of
    requests, as long as the ids do not run out: every user is stored
    under its own name, with an id that is below the next id and belongs
    to no other user, and with a bcrypt hash of the default cost of a
    password that [ValidatePassword] accepts, never with the password
    itself. *)
Theorem table_stays_ok tags_ok rs w :
  table_ok w ->
  nextID w + Z.of_nat (length rs) < 2 ^ 64 ->
  table_ok (serve_all tags_ok rs w).
Proof.
  revert w. induction rs as [|r rs IH]; intros w Hok Hbound; cbn [serve_all].
  - exact Hok.
  - cbn [length] in Hbound.
    destruct (serve_keeps_table tags_ok r w Hok ltac:(lia)) as [Hok' Hn].
    apply IH; [exact Hok' | lia].
Qed.

Lemma empty_world_table_ok : table_ok empty_world.
Proof.
  split; [cbn; lia|]. split.
  - intros name user Hget. cbn [users empty_world] in Hget.
    rewrite lookup_empty in Hget. discriminate.
  - intros n1 n2 u1 u2 H1. cbn [users empty_world] in H1.
    rewrite lookup_empty in H1. discriminate.
Qed.

(** The theorem for a fresh server that registers two users and sees a
    login. *)
Lemma table_stays_ok_witness :
  table_ok
    (serve_all (fun _ => true)
       [Register (Some "salt") 0
          (Some {| reg_Username := "tom";
                   reg_Password := "Test@123456";
                   reg_Email := "tom@example.com" |});
        Login (request "tom" "Test@123456");
        Register (Some "pepper") 1
          (Some {| reg_Username := "ann";
                   reg_Password := "Other#98765";
                   reg_Email := "ann@example.com" |})]
       empty_world).
Proof.
  apply (table_stays_ok (fun _ => true)).
  - exact empty_world_table_ok.
  - vm_compute. reflexivity.
Defined.

End Registration.

(** ** More on password hashing *)

Section Passwords.
Import HashPasswordExample VerifyPasswordExample.


(** The cost that the entry points hand to bcrypt. *)
Lemma effective_cost_in_range cost :
  let c := if (cost <? bcrypt.MinCost) || (bcrypt.MaxCost <? cost)
           then bcrypt.DefaultCost else cost in
  bcrypt.MinCost <= c <= bcrypt.MaxCost.
Proof.
  cbv zeta. unfold bcrypt.MinCost, bcrypt.MaxCost, bcrypt.DefaultCost.
  destruct (Z.ltb_spec cost 4); destruct (Z.ltb_spec 31 cost); cbn [orb]; lia.
Qed.




(** X19. [HashPasswordWithCost] has three outcomes. A password of more
    than 72 bytes is refused as too long; otherwise a failing random
    source is reported; otherwise the result is a hash of the password at
    the given cost when that is within 4 and 31, and at 10 when it is
    not. [HashPassword] is [HashPasswordWithCost] at the cost 10. *)
Theorem HashPasswordWithCost_outcomes rand password cost :
  HashPasswordWithCost rand password cost
  = (if (72 <? String.length password)%nat then inr bcrypt.ErrPasswordTooLong
    else match rand with
         | None => inr bcrypt.ErrRand
         | Some salt =>
             inl (bcrypt.Hashed
                    (if (cost <? bcrypt.MinCost) || (bcrypt.MaxCost <? cost)
                     then bcrypt.DefaultCost else cost) salt password)
         end)
  /\ HashPassword rand password
     = HashPasswordWithCost rand password bcrypt.DefaultCost.
Proof.
  split; [|reflexivity].
  unfold HashPasswordWithCost.
  pose proof (effective_cost_in_range cost) as Hc. cbv zeta in Hc.
  set (c := if (cost <? bcrypt.MinCost) || (bcrypt.MaxCost <? cost)
            then bcrypt.DefaultCost else cost) in *.
  unfold bcrypt.GenerateFromPassword, bcrypt.checkCost.
  destruct (72 <? String.length password)%nat; [reflexivity|].
  assert (E1 : (c <? bcrypt.MinCost) = false) by (apply Z.ltb_ge; lia).
  assert (E2 : (bcrypt.MaxCost <? c) = false) by (apply Z.ltb_ge; lia).
  cbv zeta. rewrite E1. rewrite E1, E2. cbn [orb]. destruct rand; reflexivity.
Qed.

End Passwords.
